(** * A Todo REST service: storage layer and HTTP handlers

    Shallow embedding of [Building_a_Todo_RESTful_API_in_Go/main.go].

    The program is a thin layer over four collaborators that are not part
    of the repository: [strconv.Atoi], [encoding/json], [database/sql]
    over SQLite, and [net/http].  Each of them is modelled here as far as
    the program observes it:

    - Go's [int] is taken to be 64 bits wide and is carried in [Z];
    - a Go [string] is a sequence of bytes, carried in [string];
    - the table [todos] is a finite map from the primary key [id] to the
      remaining columns; the engine state also holds the AUTOINCREMENT
      counter, the current timestamp and the engine's condition (a fault
      makes every statement fail without effect);
    - a request body is the JSON document at the head of the stream, or
      nothing when the stream does not start with a JSON document;
    - a response is a status code and what was written to the body;
    - [time.Time] and its JSON parsing stay abstract (section variables).
*)

From Stdlib Require Import ZArith Ascii String.
From stdpp Require Import gmap strings list fin_maps.

Open Scope Z_scope.
Set Warnings "-register-all".

(** ** strconv *)

Module strconv.

Inductive Reason := ErrSyntax | ErrRange.

(** [strconv.NumError]: the failing function, the input, the reason. *)
Record NumError := { Func : string; Num : string; Err : Reason }.

Definition syntaxError (fn str : string) : NumError :=
  {| Func := fn; Num := str; Err := ErrSyntax |}.

Definition rangeError (fn str : string) : NumError :=
  {| Func := fn; Num := str; Err := ErrRange |}.

Definition byte_val (c : ascii) : Z := Z.of_nat (nat_of_ascii c).

Definition maxUint64 : Z := 2 ^ 64 - 1.

(** The digit loop of [ParseUint] at base 10 and bit size 64, [n] being
    the accumulator; additions are those of [uint64]. *)
Fixpoint parse_uint_loop (s : string) (n : Z) : Reason + Z :=
  match s with
  | EmptyString => inr n
  | String c s' =>
      if (48 <=? byte_val c) && (byte_val c <=? 57) then
        let d := byte_val c - 48 in
        if maxUint64 / 10 + 1 <=? n then inl ErrRange
        else
          let n10 := n * 10 in
          let n1 := (n10 + d) mod 2 ^ 64 in
          if (n1 <? n10) || (maxUint64 <? n1) then inl ErrRange
          else parse_uint_loop s' n1
      else inl ErrSyntax
  end.

(** [ParseUint(s, 10, 64)]; on a range error Go also returns the
    maximal value, which [ParseInt] then rejects. *)
Definition ParseUint (s : string) : Reason + Z :=
  match s with
  | EmptyString => inl ErrSyntax
  | _ => parse_uint_loop s 0
  end.

(** [ParseInt(s, 10, 64)], with [fn] the name reported in the error. *)
Definition ParseInt_as (fn : string) (s : string) : NumError + Z :=
  match s with
  | EmptyString => inl (syntaxError fn s)
  | String c rest =>
      let neg := Ascii.eqb c "-" in
      let digits := if Ascii.eqb c "+" || neg then rest else s in
      match ParseUint digits with
      | inl ErrSyntax => inl (syntaxError fn s)
      | inl ErrRange => inl (rangeError fn s)
      | inr un =>
          let cutoff := 2 ^ 63 in
          if negb neg && (cutoff <=? un) then inl (rangeError fn s)
          else if neg && (cutoff <? un) then inl (rangeError fn s)
          else inr (if neg then - un else un)
      end
  end.

Definition ParseInt : string -> NumError + Z := ParseInt_as "ParseInt".

(** The loop of the fast path of [Atoi]: [ch -= '0'] is a byte
    subtraction, so a byte below ['0'] wraps to a value above 9. *)
Fixpoint atoi_loop (s : string) (n : Z) : option Z :=
  match s with
  | EmptyString => Some n
  | String ch s' =>
      let ch' := (byte_val ch - 48) mod 256 in
      if 9 <? ch' then None else atoi_loop s' (n * 10 + ch')
  end.

(** [strconv.Atoi] on a 64-bit platform. *)
Definition Atoi (s : string) : NumError + Z :=
  let sLen := Z.of_nat (String.length s) in
  if (0 <? sLen) && (sLen <? 19) then
    match s with
    | EmptyString => inl (syntaxError "Atoi" s)
    | String c rest =>
        let signed := Ascii.eqb c "-" || Ascii.eqb c "+" in
        if signed && (Z.of_nat (String.length rest) <? 1)
        then inl (syntaxError "Atoi" s)
        else
          match atoi_loop (if signed then rest else s) 0 with
          | None => inl (syntaxError "Atoi" s)
          | Some n => inr (if Ascii.eqb c "-" then - n else n)
          end
    end
  else ParseInt_as "Atoi" s.

(** *** Decimal numerals

    What a string of decimal digits denotes, and the decimal rendering
    of an [int] as [strconv.Itoa] and the JSON encoder write it: the
    digits of the magnitude without leading zeros, after a minus sign
    for a negative number. *)

Definition is_digit (c : ascii) : bool :=
  (48 <=? byte_val c) && (byte_val c <=? 57).

Fixpoint all_digits (s : string) : bool :=
  match s with
  | EmptyString => true
  | String c s' => is_digit c && all_digits s'
  end.

(** The number that the digits [s] denote after the digits read so far
    denoted [acc]. *)
Fixpoint decimal_from (s : string) (acc : Z) : Z :=
  match s with
  | EmptyString => acc
  | String c s' => decimal_from s' (acc * 10 + (byte_val c - 48))
  end.

Definition decimal (s : string) : Z := decimal_from s 0.

Definition digit_char (d : Z) : ascii := ascii_of_nat (Z.to_nat (48 + d)).

(** The digits of [u], at most [fuel] of them (20 are enough below 2^64). *)
Fixpoint digits_of (fuel : nat) (u : Z) : string :=
  match fuel with
  | O => EmptyString
  | S fuel' =>
      if u <? 10 then String (digit_char u) EmptyString
      else digits_of fuel' (u / 10) +:+ String (digit_char (u mod 10)) EmptyString
  end.

Definition Itoa (i : Z) : string :=
  if i <? 0 then String "-" (digits_of 20 (- i)) else digits_of 20 i.

End strconv.

(** ** Errors and JSON documents *)

(** What the storage engine itself can report. *)
Inductive engine_error :=
  | DatabaseClosed            (* sql: database is closed *)
  | SqliteError (code : Z).   (* an SQLite result code other than OK *)

Definition SQLITE_FULL : Z := 13.

Inductive json_error :=
  | SyntaxError                                  (* no JSON document in the stream *)
  | UnmarshalTypeError (value field : string)    (* JSON kind does not fit the Go field *)
  | UnmarshalerError (field : string).           (* the field's UnmarshalJSON failed *)

(** The values of Go's [error] interface that this program meets. *)
Inductive error :=
  | ErrNum (e : strconv.NumError)
  | ErrNoRows                                    (* sql.ErrNoRows *)
  | ErrEngine (e : engine_error)
  | ErrJSON (e : json_error).

Inductive json :=
  | JNull
  | JBool (b : bool)
  | JNumber (literal : string)
  | JString (s : string)
  | JArray (items : list json)
  | JObject (members : list (string * json)).

(** The description of a JSON value that [UnmarshalTypeError.Value] holds. *)
Definition json_kind (v : json) : string :=
  match v with
  | JNull => "null"
  | JBool _ => "bool"
  | JNumber _ => "number"
  | JString _ => "string"
  | JArray _ => "array"
  | JObject _ => "object"
  end.

(** Object keys are matched to struct fields without regard to ASCII
    case (none of the four field names contains a letter with a
    non-ASCII fold). *)
Definition lower (c : ascii) : ascii :=
  let n := nat_of_ascii c in
  if (65 <=? n)%nat && (n <=? 90)%nat then ascii_of_nat (n + 32) else c.

Fixpoint foldName (s : string) : string :=
  match s with
  | EmptyString => EmptyString
  | String c s' => String (lower c) (foldName s')
  end.

Inductive field := FID | FTitle | FCompleted | FCreatedAt.

Definition field_of_key (key : string) : option field :=
  let k := foldName key in
  if String.eqb k "id" then Some FID
  else if String.eqb k "title" then Some FTitle
  else if String.eqb k "completed" then Some FCompleted
  else if String.eqb k "created_at" then Some FCreatedAt
  else None.

(** [s[n:]] on a Go string: a run-time panic when [n] exceeds the length. *)
Fixpoint slice_from (n : nat) (s : string) : option string :=
  match n, s with
  | O, _ => Some s
  | S _, EmptyString => None
  | S n', String _ s' => slice_from n' s'
  end.

Section Service.

(** [time.Time], its zero value, and [Time.UnmarshalJSON] applied to a
    JSON value other than [null] ([None] when it reports an error). *)
Variable Time : Type.
Variable zero_time : Time.
Variable time_UnmarshalJSON : json -> option Time.

(** ** The entity *)

Record Todo := mkTodo {
  ID : Z;
  Title : string;
  Completed : bool;
  CreatedAt : Time
}.

(** The zero value of the struct. *)
Definition zero_Todo : Todo :=
  {| ID := 0; Title := ""; Completed := false; CreatedAt := zero_time |}.

Definition with_ID (id : Z) (t : Todo) : Todo :=
  {| ID := id; Title := Title t; Completed := Completed t;
     CreatedAt := CreatedAt t |}.

(** ** The storage engine: the table [todos] of [EnsureMigration] *)

(** The columns of a row besides its primary key. *)
Record Row := mkRow {
  title : string;
  completed : bool;
  created_at : Time
}.

Record DB := mkDB {
  todos : gmap Z Row;          (* id |-> title, completed, created_at *)
  seq : Z;                     (* sqlite_sequence: largest id handed out *)
  now : Time;                  (* CURRENT_TIMESTAMP *)
  fault : option engine_error  (* the condition every statement meets *)
}.

Definition max_int64 : Z := 2 ^ 63 - 1.

(** The largest id in the table, if the table has a row. *)
Definition max_rowid (m : gmap Z Row) : option Z :=
  foldr (λ k acc, Some (from_option (Z.max k) k acc)) None
        (fst <$> map_to_list m).

(** The id that AUTOINCREMENT gives the next row: one more than the
    largest id in the table (1 for an empty table), and more than every
    id handed out before; none once the largest 64-bit id has been in
    use (SQLITE_FULL). *)
Definition next_rowid (db : DB) : option Z :=
  let v := match max_rowid (todos db) with
           | None => Some 1
           | Some top => if max_int64 <=? top then None else Some (top + 1)
           end in
  match v with
  | None => None
  | Some v => if max_int64 <=? seq db then None
              else Some (Z.max v (seq db + 1))
  end.

(** INSERT INTO todos (title) VALUES (?): the row gets the next id,
    [completed] and [created_at] take their column defaults.  Of the
    [sql.Result] that [Exec] returns, the model keeps the part the
    statement defines: the generated id for INSERT, the number of rows
    affected for UPDATE and DELETE. *)
Definition exec_insert (ttl : string) (db : DB) : DB * (error + Z) :=
  match fault db with
  | Some e => (db, inl (ErrEngine e))
  | None =>
      match next_rowid db with
      | None => (db, inl (ErrEngine (SqliteError SQLITE_FULL)))
      | Some id =>
          let row := {| title := ttl; completed := false;
                        created_at := now db |} in
          ({| todos := <[id := row]> (todos db); seq := id;
              now := now db; fault := fault db |},
           inr id)
      end
  end.

(** UPDATE todos SET title = ?, completed = ? WHERE id = ? *)
Definition exec_update (ttl : string) (done : bool) (id : Z) (db : DB)
  : DB * (error + Z) :=
  match fault db with
  | Some e => (db, inl (ErrEngine e))
  | None =>
      match todos db !! id with
      | None => (db, inr 0)
      | Some old =>
          let row := {| title := ttl; completed := done;
                        created_at := created_at old |} in
          ({| todos := <[id := row]> (todos db); seq := seq db;
              now := now db; fault := fault db |},
           inr 1)
      end
  end.

(** DELETE FROM todos WHERE id = ? *)
Definition exec_delete (id : Z) (db : DB) : DB * (error + Z) :=
  match fault db with
  | Some e => (db, inl (ErrEngine e))
  | None =>
      match todos db !! id with
      | None => (db, inr 0)
      | Some _ =>
          ({| todos := delete id (todos db); seq := seq db;
              now := now db; fault := fault db |},
           inr 1)
      end
  end.

(** SELECT id, title, completed, created_at FROM todos *)
Definition query_all (db : DB) : error + list (Z * Row) :=
  match fault db with
  | Some e => inl (ErrEngine e)
  | None => inr (map_to_list (todos db))
  end.

(** SELECT id, title, completed, created_at FROM todos WHERE id = ?
    followed by [Row.Scan]: [sql.ErrNoRows] when nothing matches. *)
Definition query_row (id : Z) (db : DB) : error + Z * Row :=
  match fault db with
  | Some e => inl (ErrEngine e)
  | None =>
      match todos db !! id with
      | None => inl ErrNoRows
      | Some r => inr (id, r)
      end
  end.

(** [rows.Scan(&todo.ID, &todo.Title, &todo.Completed, &todo.CreatedAt)] *)
Definition scan (r : Z * Row) : Todo :=
  {| ID := fst r; Title := title (snd r); Completed := completed (snd r);
     CreatedAt := created_at (snd r) |}.

(** ** TodoSQLStore *)

Definition GetAll (db : DB) : error + list Todo :=
  match query_all db with
  | inl err => inl err
  | inr rows => inr (scan <$> rows)
  end.

Definition GetByID (id : Z) (db : DB) : error + Todo :=
  match query_row id db with
  | inl err => inl err
  | inr r => inr (scan r)
  end.

Definition Create (ttl : string) (db : DB) : DB * (error + Todo) :=
  match exec_insert ttl db with
  | (db', inl err) => (db', inl err)
  | (db', inr id) => (db', GetByID id db')
  end.

Definition Update (todo : Todo) (db : DB) : DB * option error :=
  match exec_update (Title todo) (Completed todo) (ID todo) db with
  | (db', inl err) => (db', Some err)
  | (db', inr _) => (db', None)
  end.

Definition Delete (id : Z) (db : DB) : DB * option error :=
  match exec_delete id db with
  | (db', inl err) => (db', Some err)
  | (db', inr _) => (db', None)
  end.

(** ** encoding/json: decoding a request body into a Todo *)

(** The decoder keeps the first type mismatch and goes on
    ([saveError]); an error of a field's own [UnmarshalJSON] stops it. *)
Inductive decoding :=
  | Going (t : Todo) (saved : option json_error)
  | Stopped (e : json_error).

Definition saveError (saved : option json_error) (e : json_error)
  : option json_error :=
  match saved with
  | Some _ => saved
  | None => Some e
  end.

(** One member of a JSON object stored into the struct: [null] leaves a
    field as it is, a key that matches no field is skipped. *)
Definition store_member (key : string) (v : json) (t : Todo)
    (saved : option json_error) : decoding :=
  match field_of_key key with
  | None => Going t saved
  | Some FID =>
      match v with
      | JNull => Going t saved
      | JNumber lit =>
          match strconv.ParseInt lit with
          | inr n => Going (with_ID n t) saved
          | inl _ =>
              Going t (saveError saved
                         (UnmarshalTypeError ("number " +:+ lit) "id"))
          end
      | _ => Going t (saveError saved (UnmarshalTypeError (json_kind v) "id"))
      end
  | Some FTitle =>
      match v with
      | JNull => Going t saved
      | JString str =>
          Going {| ID := ID t; Title := str; Completed := Completed t;
                   CreatedAt := CreatedAt t |} saved
      | _ => Going t (saveError saved (UnmarshalTypeError (json_kind v) "title"))
      end
  | Some FCompleted =>
      match v with
      | JNull => Going t saved
      | JBool b =>
          Going {| ID := ID t; Title := Title t; Completed := b;
                   CreatedAt := CreatedAt t |} saved
      | _ =>
          Going t (saveError saved (UnmarshalTypeError (json_kind v) "completed"))
      end
  | Some FCreatedAt =>
      match v with
      | JNull => Going t saved
      | _ =>
          match time_UnmarshalJSON v with
          | Some tm =>
              Going {| ID := ID t; Title := Title t; Completed := Completed t;
                       CreatedAt := tm |} saved
          | None => Stopped (UnmarshalerError "created_at")
          end
      end
  end.

(** The members of an object are stored in the order of the document,
    so the last of several members for one field wins. *)
Fixpoint store_members (ms : list (string * json)) (t : Todo)
    (saved : option json_error) : decoding :=
  match ms with
  | [] => Going t saved
  | (key, v) :: rest =>
      match store_member key v t saved with
      | Going t' saved' => store_members rest t' saved'
      | Stopped e => Stopped e
      end
  end.

Definition decoded (d : decoding) : error + Todo :=
  match d with
  | Going t None => inr t
  | Going _ (Some e) => inl (ErrJSON e)
  | Stopped e => inl (ErrJSON e)
  end.

(** A JSON value unmarshalled into a struct value [t]: [null] has no
    effect, an object is stored member by member, any other kind is a
    type mismatch. *)
Definition unmarshal_struct (v : json) (t : Todo) : error + Todo :=
  match v with
  | JNull => inr t
  | JObject ms => decoded (store_members ms t None)
  | _ => inl (ErrJSON (UnmarshalTypeError (json_kind v) ""))
  end.

(** [var todo Todo; json.NewDecoder(r.Body).Decode(&todo)] *)
Definition Decode_Todo (body : option json) : error + Todo :=
  match body with
  | None => inl (ErrJSON SyntaxError)
  | Some v => unmarshal_struct v zero_Todo
  end.

(** [var todo *Todo; json.NewDecoder(r.Body).Decode(&todo)]: [null]
    sets the pointer to nil ([None]); any other value is unmarshalled
    into a newly allocated Todo. *)
Definition Decode_Todo_ptr (body : option json) : error + option Todo :=
  match body with
  | None => inl (ErrJSON SyntaxError)
  | Some JNull => inr None
  | Some v =>
      match unmarshal_struct v zero_Todo with
      | inl err => inl err
      | inr t => inr (Some t)
      end
  end.

(** ** net/http *)

Record Request := mkRequest {
  Method : string;
  Path : string;             (* r.URL.Path *)
  Body : option json         (* r.Body *)
}.

(** A line of text written by [http.Error]: a fixed text or the text
    [err.Error()] of an error. *)
Inductive message :=
  | Text (s : string)
  | ErrorText (e : error).

(** What a handler wrote to the response body. *)
Inductive payload :=
  | NoBody
  | Line (m : message)               (* http.Error: the message and a newline *)
  | EncodedTodo (t : Todo)           (* Encode of a Todo *)
  | EncodedTodos (l : list Todo).    (* Encode of a []*Todo *)

Record Response := mkResponse { Status : Z; Payload : payload }.

(** A handler returns after writing its response, or panics (the
    server then sends no response and drops the connection). *)
Inductive outcome :=
  | Responded (r : Response)
  | Panicked.

Definition StatusOK : Z := 200.
Definition StatusBadRequest : Z := 400.
Definition StatusMethodNotAllowed : Z := 405.
Definition StatusInternalServerError : Z := 500.

Definition http_Error (m : message) (code : Z) : outcome :=
  Responded {| Status := code; Payload := Line m |}.

(** Writing a body without an explicit status, or returning without
    writing at all, sends status 200.  [Encode] of a Todo cannot fail
    here (stored, decoded and zero times all have a four-digit year),
    so its error branch has no counterpart. *)
Definition ok (p : payload) : outcome :=
  Responded {| Status := StatusOK; Payload := p |}.

(** The handler registered for the pattern "/todos". *)
Definition handle_todos (r : Request) (db : DB) : DB * outcome :=
  if String.eqb (Method r) "GET" then
    match GetAll db with
    | inl err => (db, http_Error (ErrorText err) StatusInternalServerError)
    | inr ts => (db, ok (EncodedTodos ts))
    end
  else if String.eqb (Method r) "POST" then
    match Decode_Todo_ptr (Body r) with
    | inl err => (db, http_Error (ErrorText err) StatusBadRequest)
    | inr None => (db, Panicked)            (* todo.Title on a nil pointer *)
    | inr (Some todo) =>
        match Create (Title todo) db with
        | (db', inl err) =>
            (db', http_Error (ErrorText err) StatusInternalServerError)
        | (db', inr created) => (db', ok (EncodedTodo created))
        end
    end
  else (db, http_Error (Text "Method not allowed") StatusMethodNotAllowed).

(** The handler registered for the pattern "/todos/". *)
Definition handle_todo (r : Request) (db : DB) : DB * outcome :=
  match slice_from (String.length "/todos/") (Path r) with
  | None => (db, Panicked)
  | Some suffix =>
      match strconv.Atoi suffix with
      | inl err => (db, http_Error (ErrorText (ErrNum err)) StatusBadRequest)
      | inr id =>
          if String.eqb (Method r) "GET" then
            match GetByID id db with
            | inl err => (db, http_Error (ErrorText err) StatusInternalServerError)
            | inr todo => (db, ok (EncodedTodo todo))
            end
          else if String.eqb (Method r) "PUT" then
            match Decode_Todo (Body r) with
            | inl err => (db, http_Error (ErrorText err) StatusBadRequest)
            | inr todo =>
                let todo := with_ID id todo in
                match Update todo db with
                | (db', Some err) =>
                    (db', http_Error (ErrorText err) StatusInternalServerError)
                | (db', None) => (db', ok (EncodedTodo todo))
                end
            end
          else if String.eqb (Method r) "DELETE" then
            match Delete id db with
            | (db', Some err) =>
                (db', http_Error (ErrorText err) StatusInternalServerError)
            | (db', None) => (db', ok NoBody)
            end
          else (db, http_Error (Text "Method not allowed") StatusMethodNotAllowed)
      end
  end.

(** ** Shapes of request bodies *)

(** An object has no member for the field [title], or each such member
    is the empty string. *)
Definition title_absent_or_empty (ms : list (string * json)) : bool :=
  forallb (λ kv, match field_of_key kv.1, kv.2 with
                 | Some FTitle, JString EmptyString => true
                 | Some FTitle, _ => false
                 | _, _ => true
                 end) ms.

(** A member whose key matches one of the four fields. *)
Definition known_member (kv : string * json) : bool :=
  match field_of_key kv.1 with
  | Some _ => true
  | None => false
  end.

(** A member fits the struct when its key matches no field, when its
    value is [null], or when the value has the JSON type of the field it
    matches: an integer of 64 bits for [id], a string for [title], a
    boolean for [completed], a time for [created_at]. *)
Definition member_fits (kv : string * json) : bool :=
  match field_of_key kv.1, kv.2 with
  | None, _ => true
  | Some _, JNull => true
  | Some FID, JNumber lit =>
      match strconv.ParseInt lit with
      | inr _ => true
      | inl _ => false
      end
  | Some FTitle, JString _ => true
  | Some FCompleted, JBool _ => true
  | Some FCreatedAt, v =>
      match time_UnmarshalJSON v with
      | Some _ => true
      | None => false
      end
  | Some _, _ => false
  end.

(** ** Start-up: [NewDB], [EnsureMigration] and the head of [main] *)

(** The database behind the data source name: a file in which the table
    [todos] does not exist yet, or one that has it. *)
Inductive Database :=
  | NoTable (clk : Time) (flt : option engine_error)
  | HasTable (db : DB).

Definition condition (d : Database) : option engine_error :=
  match d with
  | NoTable _ flt => flt
  | HasTable db => fault db
  end.

(** [NewDB]: [sql.Open] and then [Ping], which fails when the engine
    cannot be reached. *)
Definition NewDB (d : Database) : error + Database :=
  match condition d with
  | Some e => inl (ErrEngine e)
  | None => inr d
  end.

(** [EnsureMigration]: CREATE TABLE IF NOT EXISTS todos (...).  A table
    that is there is left alone (it is taken to have the columns of the
    statement); a new one is empty and has handed out no id. *)
Definition EnsureMigration (d : Database) : Database * option error :=
  match condition d with
  | Some e => (d, Some (ErrEngine e))
  | None =>
      match d with
      | NoTable clk _ =>
          (HasTable {| todos := ∅; seq := 0; now := clk; fault := None |}, None)
      | HasTable _ => (d, None)
      end
  end.

(** [main] up to the registration of the handlers: [log.Fatal] ends the
    process, otherwise the handlers serve the database. *)
Inductive started :=
  | Fatal (err : error)
  | Listening (d : Database).

Definition main_start (d : Database) : started :=
  match NewDB d with
  | inl err => Fatal err
  | inr d1 =>
      match EnsureMigration d1 with
      | (_, Some err) => Fatal err
      | (d2, None) => Listening d2
      end
  end.

(** ** Sequences of calls *)

(** The calls of the store that can change the table, one after
    another on the same storage. *)
Inductive store_call :=
  | CallCreate (ttl : string)
  | CallUpdate (todo : Todo)
  | CallDelete (id : Z).

Definition store_step (c : store_call) (db : DB) : DB :=
  match c with
  | CallCreate ttl => (Create ttl db).1
  | CallUpdate todo => (Update todo db).1
  | CallDelete id => (Delete id db).1
  end.

Fixpoint store_steps (cs : list store_call) (db : DB) : DB :=
  match cs with
  | [] => db
  | c :: cs' => store_steps cs' (store_step c db)
  end.

(** The requests that the server hands to the two handlers, one after
    another. *)
Inductive call :=
  | ToTodos (r : Request)     (* pattern "/todos" *)
  | ToTodo (r : Request).     (* pattern "/todos/" *)

Definition serve (c : call) (db : DB) : DB * outcome :=
  match c with
  | ToTodos r => handle_todos r db
  | ToTodo r => handle_todo r db
  end.

Fixpoint serve_all (cs : list call) (db : DB) : DB :=
  match cs with
  | [] => db
  | c :: cs' => serve_all cs' (serve c db).1
  end.

(** Every stored id is positive and at most the AUTOINCREMENT counter,
    which is a 64-bit id. *)
Definition well_numbered (db : DB) : Prop :=
  (∀ id r, todos db !! id = Some r → 1 ≤ id ≤ seq db) ∧
  0 ≤ seq db ≤ max_int64.

End Service.

Arguments mkTodo {Time}.
Arguments ID {Time}.
Arguments Title {Time}.
Arguments Completed {Time}.
Arguments CreatedAt {Time}.
Arguments zero_Todo {Time}.
Arguments with_ID {Time}.
Arguments mkRow {Time}.
Arguments title {Time}.
Arguments completed {Time}.
Arguments created_at {Time}.
Arguments mkDB {Time}.
Arguments todos {Time}.
Arguments seq {Time}.
Arguments now {Time}.
Arguments fault {Time}.
Arguments max_rowid {Time}.
Arguments next_rowid {Time}.
Arguments exec_insert {Time}.
Arguments exec_update {Time}.
Arguments exec_delete {Time}.
Arguments query_all {Time}.
Arguments query_row {Time}.
Arguments scan {Time}.
Arguments GetAll {Time}.
Arguments GetByID {Time}.
Arguments Create {Time}.
Arguments Update {Time}.
Arguments Delete {Time}.
Arguments Going {Time}.
Arguments Stopped {Time}.
Arguments store_member {Time}.
Arguments store_members {Time}.
Arguments decoded {Time}.
Arguments unmarshal_struct {Time}.
Arguments Decode_Todo {Time}.
Arguments Decode_Todo_ptr {Time}.
Arguments mkResponse {Time}.
Arguments Status {Time}.
Arguments Payload {Time}.
Arguments NoBody {Time}.
Arguments Line {Time}.
Arguments EncodedTodo {Time}.
Arguments EncodedTodos {Time}.
Arguments Responded {Time}.
Arguments Panicked {Time}.
Arguments http_Error {Time}.
Arguments ok {Time}.
Arguments handle_todos {Time}.
Arguments handle_todo {Time}.
Arguments member_fits {Time}.
Arguments NoTable {Time}.
Arguments HasTable {Time}.
Arguments condition {Time}.
Arguments NewDB {Time}.
Arguments EnsureMigration {Time}.
Arguments Fatal {Time}.
Arguments Listening {Time}.
Arguments main_start {Time}.
Arguments CallCreate {Time}.
Arguments CallUpdate {Time}.
Arguments CallDelete {Time}.
Arguments store_step {Time}.
Arguments store_steps {Time}.
Arguments serve {Time}.
Arguments serve_all {Time}.
Arguments well_numbered {Time}.

(** ** A concrete instance

    Times are counted in seconds, the zero time is 0, and, for the runs
    below, no [created_at] member is accepted. *)

Definition no_time (_ : json) : option Z := None.

Definition clock : Z := 1700000000.

(** One stored Todo, created a day before [clock]. *)
Definition one_todo : DB Z :=
  mkDB {[ 1 := mkRow "buy milk" false 1699913600 ]} 1 clock None.

Definition empty_db : DB Z := mkDB (∅ : gmap Z (Row Z)) 0 clock None.

Definition closed_db : DB Z :=
  mkDB {[ 1 := mkRow "buy milk" false 1699913600 ]} 1 clock (Some DatabaseClosed).

Definition after_create : DB Z :=
  mkDB (<[ 2 := mkRow "write spec" false clock ]>
          {[ 1 := mkRow "buy milk" false 1699913600 ]}) 2 clock None.

Definition after_update : DB Z :=
  mkDB (<[ 1 := mkRow "buy oat milk" true 1699913600 ]>
          {[ 1 := mkRow "buy milk" false 1699913600 ]}) 1 clock None.

Definition after_delete : DB Z :=
  mkDB (delete 1 ({[ 1 := mkRow "buy milk" false 1699913600 ]} : gmap Z (Row Z)))
       1 clock None.

(** Requests for the runs below. *)

Definition post_spec : Request :=
  mkRequest "POST" "/todos"
    (Some (JObject [("title", JString "write spec"); ("completed", JBool true);
                    ("id", JNumber "7")])).

Definition get_1 : Request := mkRequest "GET" "/todos/1" None.

Definition get_2 : Request := mkRequest "GET" "/todos/2" None.

Definition delete_1 : Request := mkRequest "DELETE" "/todos/1" None.

Definition put_1 : Request :=
  mkRequest "PUT" "/todos/1"
    (Some (JObject [("title", JString "buy oat milk"); ("completed", JBool true)])).

Definition put_1_done : Request :=
  mkRequest "PUT" "/todos/1" (Some (JObject [("completed", JBool true)])).

Definition milk : Todo Z := mkTodo 1 "buy milk" false 1699913600.

Definition spec_todo : Todo Z := mkTodo 2 "write spec" false clock.

Section Properties.

Context {Time : Type}.
Variable zero_time : Time.
Variable time_UnmarshalJSON : json → option Time.

(** * Properties of the storage layer *)

Lemma foldr_max_bound (l : list Z) (top : Z) :
  foldr (λ k acc, Some (from_option (Z.max k) k acc)) None l = Some top →
  ∀ k, k ∈ l → k ≤ top.
Proof.
  revert top. induction l as [|x l IH]; intros top Hfold k Hin.
  - by apply elem_of_nil in Hin.
  - simpl in Hfold. injection Hfold as <-.
    destruct (foldr _ None l) as [top'|] eqn:Hl; simpl.
    + apply elem_of_cons in Hin as [->|Hin]; [lia|].
      specialize (IH top' eq_refl k Hin). lia.
    + apply elem_of_cons in Hin as [->|Hin]; [lia|].
      destruct l; [by apply elem_of_nil in Hin|discriminate].
Qed.

(** No stored id exceeds [max_rowid]. *)
Lemma max_rowid_ge (m : gmap Z (Row Time)) (top k : Z) (r : Row Time) :
  max_rowid m = Some top → m !! k = Some r → k ≤ top.
Proof.
  intros Htop Hk. apply (foldr_max_bound _ _ Htop), list_elem_of_fmap.
  exists (k, r). split; [done|]. by apply elem_of_map_to_list.
Qed.

(** Only the empty table has no largest id. *)
Lemma max_rowid_None (m : gmap Z (Row Time)) (k : Z) :
  max_rowid m = None → m !! k = None.
Proof.
  unfold max_rowid. intros Hnone.
  destruct (m !! k) as [r|] eqn:Hk; [|done].
  apply elem_of_map_to_list in Hk.
  destruct (map_to_list m) as [|kv l]; [by apply elem_of_nil in Hk|discriminate].
Qed.

(** The id AUTOINCREMENT hands out is not in the table, and is a 64-bit
    id above the counter. *)
Lemma next_rowid_fresh (db : DB Time) (id : Z) :
  next_rowid db = Some id →
  todos db !! id = None ∧ seq db < id ∧ id ≤ max_int64.
Proof.
  unfold next_rowid.
  destruct (max_rowid (todos db)) as [top|] eqn:Htop.
  - destruct (max_int64 <=? top) eqn:Hfull; [discriminate|].
    destruct (max_int64 <=? seq db) eqn:Hseq; [discriminate|].
    apply Z.leb_gt in Hfull, Hseq. intros [= <-].
    split; [|unfold max_int64 in *; lia].
    destruct (todos db !! _) as [r|] eqn:Hk; [|done].
    apply (max_rowid_ge _ _ _ _ Htop) in Hk. lia.
  - destruct (max_int64 <=? seq db) eqn:Hseq; [discriminate|].
    apply Z.leb_gt in Hseq. intros [= <-].
    split; [|unfold max_int64 in *; lia].
    by apply max_rowid_None.
Qed.

(** What INSERT does on an engine without fault and with an id left. *)
Lemma exec_insert_ok (ttl : string) (db : DB Time) (id : Z) :
  fault db = None →
  next_rowid db = Some id →
  exec_insert ttl db =
    ({| todos := <[id := mkRow ttl false (now db)]> (todos db);
        seq := id; now := now db; fault := None |}, inr id).
Proof. intros Hf Hid. unfold exec_insert. by rewrite Hf, Hid. Qed.

(** Every way INSERT can succeed. *)
Lemma exec_insert_inv (ttl : string) (db db' : DB Time) (id : Z) :
  exec_insert ttl db = (db', inr id) →
  fault db = None ∧
  next_rowid db = Some id ∧
  db' = {| todos := <[id := mkRow ttl false (now db)]> (todos db);
           seq := id; now := now db; fault := None |}.
Proof.
  unfold exec_insert. destruct (fault db) eqn:Hf; [discriminate|].
  destruct (next_rowid db) as [id'|]; [|discriminate].
  by intros [= <- <-].
Qed.

Lemma Create_inv (ttl : string) (db db' : DB Time) (t : Todo Time) :
  Create ttl db = (db', inr t) →
  ∃ id, exec_insert ttl db = (db', inr id) ∧ GetByID id db' = inr t.
Proof.
  unfold Create. destruct (exec_insert ttl db) as [db1 [err|id]];
    [discriminate|].
  intros [= <- Hget]. eauto.
Qed.

(** [Create] succeeds whenever the engine has no fault and an id is left. *)
Lemma Create_ok (ttl : string) (db : DB Time) (id : Z) :
  fault db = None →
  next_rowid db = Some id →
  Create ttl db =
    ({| todos := <[id := mkRow ttl false (now db)]> (todos db);
        seq := id; now := now db; fault := None |},
     inr (mkTodo id ttl false (now db))).
Proof.
  intros Hf Hid. unfold Create.
  rewrite (exec_insert_ok ttl db id Hf Hid).
  unfold GetByID, query_row. simpl. by rewrite lookup_insert_eq.
Qed.

Lemma Update_fault (todo : Todo Time) (db : DB Time) (e : engine_error) :
  fault db = Some e → Update todo db = (db, Some (ErrEngine e)).
Proof. intros Hf. unfold Update, exec_update. by rewrite Hf. Qed.

Lemma Delete_fault (id : Z) (db : DB Time) (e : engine_error) :
  fault db = Some e → Delete id db = (db, Some (ErrEngine e)).
Proof. intros Hf. unfold Delete, exec_delete. by rewrite Hf. Qed.

(** [Update] on a working engine: the rows after it. *)
Lemma Update_ok (todo : Todo Time) (db : DB Time) :
  fault db = None →
  Update todo db =
    (match todos db !! ID todo with
     | None => db
     | Some old =>
         {| todos := <[ID todo := mkRow (Title todo) (Completed todo)
                                       (created_at old)]> (todos db);
            seq := seq db; now := now db; fault := fault db |}
     end, None).
Proof.
  intros Hf. unfold Update, exec_update. rewrite Hf.
  by destruct (todos db !! ID todo).
Qed.

Lemma Update_success_inv (todo : Todo Time) (db db' : DB Time) :
  Update todo db = (db', None) → fault db = None.
Proof.
  destruct (fault db) as [e|] eqn:Hf; [|done].
  rewrite (Update_fault todo db e Hf). discriminate.
Qed.

(** [Delete] on a working engine: the rows after it. *)
Lemma Delete_ok (id : Z) (db : DB Time) :
  fault db = None →
  Delete id db =
    (match todos db !! id with
     | None => db
     | Some _ =>
         {| todos := delete id (todos db);
            seq := seq db; now := now db; fault := fault db |}
     end, None).
Proof.
  intros Hf. unfold Delete, exec_delete. rewrite Hf.
  by destruct (todos db !! id).
Qed.

Lemma Delete_success_inv (id : Z) (db db' : DB Time) :
  Delete id db = (db', None) → fault db = None.
Proof.
  destruct (fault db) as [e|] eqn:Hf; [|done].
  rewrite (Delete_fault id db e Hf). discriminate.
Qed.

Lemma GetAll_ok (db : DB Time) :
  fault db = None → GetAll db = inr (scan <$> map_to_list (todos db)).
Proof. intros Hf. unfold GetAll, query_all. by rewrite Hf. Qed.

(** [GetAll] returns as many Todos as the table has rows. *)
Lemma GetAll_length (db : DB Time) (l : list (Todo Time)) :
  GetAll db = inr l → length l = size (todos db).
Proof.
  unfold GetAll, query_all. destruct (fault db); [discriminate|].
  intros [= <-]. by rewrite length_fmap, length_map_to_list.
Qed.

(** [GetAll] returns exactly the stored Todos. *)
Lemma GetAll_GetByID (db : DB Time) (l : list (Todo Time)) (t : Todo Time) :
  GetAll db = inr l → (t ∈ l ↔ GetByID (ID t) db = inr t).
Proof.
  unfold GetAll, GetByID, query_all, query_row.
  destruct (fault db); [discriminate|]. intros [= <-].
  rewrite list_elem_of_fmap. split.
  - intros ([k r] & -> & Hin). apply elem_of_map_to_list in Hin.
    simpl. by rewrite Hin.
  - destruct (todos db !! ID t) as [r|] eqn:Hr; [|discriminate].
    intros [= <-]. exists (ID t, r). split; [done|].
    by apply elem_of_map_to_list.
Qed.

(** C1: when [Create T] returns a Todo, [GetByID] on that Todo's id
    returns the same Todo, whose title is [T] and whose completed field
    is false; [Create] has added exactly the row (T, false, now) under
    an id that was not in the table, and the Todo it returns is that
    row as read back. *)
Theorem Create_then_GetByID (T : string) (db db' : DB Time) (t : Todo Time) :
  Create T db = (db', inr t) →
  GetByID (ID t) db' = inr t ∧
  Title t = T ∧ Completed t = false ∧ CreatedAt t = now db ∧
  todos db !! ID t = None ∧
  todos db' = <[ID t := mkRow T false (now db)]> (todos db).
Proof.
  intros (id & Hins & Hget)%Create_inv.
  apply exec_insert_inv in Hins as (Hf & Hid & ->).
  unfold GetByID, query_row in Hget. simpl in Hget.
  rewrite lookup_insert_eq in Hget. injection Hget as <-. simpl.
  repeat split; try done.
  - unfold GetByID, query_row. simpl. by rewrite lookup_insert_eq.
  - by apply next_rowid_fresh.
Qed.

(** C2: for a Todo whose id is stored, [Update] succeeds on a working
    engine, and whenever [Update] has returned without error, [GetByID]
    of that id returns the Todo's title (and completed flag) under the
    same id, with the creation time the row had. *)
Theorem Update_then_GetByID (todo : Todo Time) (db : DB Time) (old : Row Time) :
  todos db !! ID todo = Some old →
  (fault db = None → ∃ db', Update todo db = (db', None)) ∧
  (∀ db', Update todo db = (db', None) →
     GetByID (ID todo) db' =
       inr (mkTodo (ID todo) (Title todo) (Completed todo) (created_at old))).
Proof.
  intros Hold. split.
  - intros Hf. rewrite (Update_ok todo db Hf). eauto.
  - intros db' Hupd. pose proof (Update_success_inv _ _ _ Hupd) as Hf.
    rewrite (Update_ok todo db Hf), Hold in Hupd. injection Hupd as <-.
    unfold GetByID, query_row. simpl. by rewrite Hf, lookup_insert_eq.
Qed.

(** C3: after [Delete id] has returned without error, [GetByID id]
    fails with [sql.ErrNoRows]. *)
Theorem Delete_then_GetByID (id : Z) (db db' : DB Time) :
  Delete id db = (db', None) → GetByID id db' = inl ErrNoRows.
Proof.
  intros Hdel. pose proof (Delete_success_inv _ _ _ Hdel) as Hf.
  rewrite (Delete_ok id db Hf) in Hdel. injection Hdel as <-.
  unfold GetByID, query_row.
  destruct (todos db !! id) eqn:Hrow; simpl.
  - by rewrite Hf, lookup_delete_eq.
  - by rewrite Hf, Hrow.
Qed.

(** C4: when no row has the Todo's id, [Update] leaves the storage as
    it is and returns the engine's fault, if there is one, and no error
    otherwise; the same holds of [Delete] for an id that no row has. *)
Theorem Update_Delete_no_match (todo : Todo Time) (id : Z) (db : DB Time) :
  todos db !! ID todo = None →
  todos db !! id = None →
  Update todo db = (db, ErrEngine <$> fault db) ∧
  Delete id db = (db, ErrEngine <$> fault db) ∧
  (fault db = None → Update todo db = (db, None) ∧ Delete id db = (db, None)).
Proof.
  intros Hu Hd.
  assert (Update todo db = (db, ErrEngine <$> fault db)) as HU.
  { unfold Update, exec_update. destruct (fault db); [done|]. by rewrite Hu. }
  assert (Delete id db = (db, ErrEngine <$> fault db)) as HD.
  { unfold Delete, exec_delete. destruct (fault db); [done|]. by rewrite Hd. }
  split; [done|split; [done|]].
  intros Hf. by rewrite HU, HD, Hf.
Qed.

(** C7: from any storage state, a [Create] that returns a Todo leads
    to a state where [GetAll] returns exactly one Todo more, and a
    [Delete] of a stored id that returns no error leads to a state
    where [GetAll] returns exactly one Todo less. *)
Theorem GetAll_count (db db' : DB Time) :
  (∀ T t, Create T db = (db', inr t) →
     ∃ l l', GetAll db = inr l ∧ GetAll db' = inr l' ∧
             length l' = S (length l)) ∧
  (∀ id, is_Some (todos db !! id) → Delete id db = (db', None) →
     ∃ l l', GetAll db = inr l ∧ GetAll db' = inr l' ∧
             S (length l') = length l).
Proof.
  split.
  - intros T t (id & Hins & _)%Create_inv.
    apply exec_insert_inv in Hins as (Hf & Hid & ->).
    do 2 eexists. rewrite !GetAll_ok by done. repeat split.
    rewrite !length_fmap, !length_map_to_list. simpl.
    apply map_size_insert_None. by apply next_rowid_fresh.
  - intros id [r Hr] Hdel.
    pose proof (Delete_success_inv _ _ _ Hdel) as Hf.
    rewrite (Delete_ok id db Hf), Hr in Hdel. injection Hdel as <-.
    do 2 eexists. rewrite !GetAll_ok by done. repeat split.
    rewrite !length_fmap, !length_map_to_list. simpl.
    rewrite map_size_delete_Some by eauto.
    assert (size (todos db) ≠ 0%nat); [|lia].
    intros Hz%map_size_empty_inv. by rewrite Hz in Hr.
Qed.

(** C8: whatever Todo [Update] is called with and whatever it returns,
    afterwards every id of the table is still there and no other, each
    row has the creation time it had, every row under another id than
    the Todo's is as it was, and so a row under the Todo's id differs at
    most in title and completed flag; read through [GetByID], every
    stored Todo keeps its id and creation time. *)
Theorem Update_frame (todo : Todo Time) (db : DB Time) :
  let db' := (Update todo db).1 in
  dom (todos db') = dom (todos db) ∧
  (∀ id, created_at <$> todos db' !! id = created_at <$> todos db !! id) ∧
  (∀ id, id ≠ ID todo → todos db' !! id = todos db !! id) ∧
  (∀ id t, GetByID id db = inr t →
     ∃ t', GetByID id db' = inr t' ∧ ID t' = ID t ∧
           CreatedAt t' = CreatedAt t ∧ (id ≠ ID todo → t' = t)).
Proof.
  assert (∀ id, created_at <$> todos (Update todo db).1 !! id
                = created_at <$> todos db !! id) as Hat.
  { intros id. destruct (fault db) as [e|] eqn:Hf.
    - by rewrite (Update_fault todo db e Hf).
    - rewrite (Update_ok todo db Hf).
      destruct (todos db !! ID todo) as [old|] eqn:Hold; simpl; [|done].
      destruct (decide (ID todo = id)) as [<-|Hne].
      + by rewrite lookup_insert_eq, Hold.
      + by rewrite lookup_insert_ne. }
  assert (∀ id, id ≠ ID todo →
                todos (Update todo db).1 !! id = todos db !! id) as Hother.
  { intros id Hne. destruct (fault db) as [e|] eqn:Hf.
    - by rewrite (Update_fault todo db e Hf).
    - rewrite (Update_ok todo db Hf).
      destruct (todos db !! ID todo) as [old|]; simpl; [|done].
      by rewrite lookup_insert_ne. }
  assert (fault (Update todo db).1 = fault db) as Hfault.
  { destruct (fault db) as [e|] eqn:Hf.
    - by rewrite (Update_fault todo db e Hf).
    - rewrite (Update_ok todo db Hf). by destruct (todos db !! ID todo). }
  simpl. repeat split; try done.
  - apply set_eq. intros id.
    rewrite !elem_of_dom, <-!(fmap_is_Some created_at). by rewrite Hat.
  - intros id t. unfold GetByID, query_row. rewrite Hfault.
    destruct (fault db); [discriminate|].
    specialize (Hat id). specialize (Hother id).
    destruct (todos db !! id) as [r|]; [|discriminate].
    destruct (todos (Update todo db).1 !! id) as [r'|]; [|discriminate].
    intros [= <-]. eexists. split; [done|]. simpl in *.
    split; [done|]. split; [congruence|].
    intros Hne. specialize (Hother Hne). congruence.
Qed.

(** * Properties of the handlers *)

Lemma slice_from_prefix (suffix : string) :
  slice_from (String.length "/todos/") ("/todos/" +:+ suffix) = Some suffix.
Proof. reflexivity. Qed.

(** Storing members that leave the title alone or empty keeps an empty
    title empty. *)
Lemma store_members_title (ms : list (string * json)) :
  title_absent_or_empty ms = true →
  ∀ t saved t' saved',
    store_members time_UnmarshalJSON ms t saved = Going t' saved' →
    Title t = "" → Title t' = "".
Proof.
  induction ms as [|[key v] ms IH]; intros Hms t saved t' saved' Hrun Ht.
  - by injection Hrun as <- _.
  - simpl in Hms, Hrun. apply andb_true_iff in Hms as [Hv Hms].
    destruct (store_member time_UnmarshalJSON key v t saved)
      as [t1 saved1|e] eqn:Hone; [|discriminate].
    apply (IH Hms t1 saved1 t' saved' Hrun).
    unfold store_member in Hone.
    destruct (field_of_key key) as [[]|].
    + destruct v; try (injection Hone as <- _; done).
      destruct (strconv.ParseInt literal); by injection Hone as <- _.
    + destruct v as [| | |[|]| |]; try discriminate Hv.
      by injection Hone as <- _.
    + destruct v; by injection Hone as <- _.
    + destruct v; try (injection Hone as <- _; done);
        destruct (time_UnmarshalJSON _); try discriminate;
        by injection Hone as <- _.
    + by injection Hone as <- _.
Qed.

(** C5: a PUT to /todos/<id> whose body decodes into a Todo and whose
    [Update] returns no error leaves the storage as that [Update] of the
    decoded Todo, its id replaced by the one of the path, leaves it, and
    answers 200 with that same Todo as the body. *)
Theorem PUT_responds_with_input
    (r : Request) (db db' : DB Time) (suffix : string) (id : Z)
    (v : json) (todo : Todo Time) :
  Method r = "PUT" →
  Path r = "/todos/" +:+ suffix →
  strconv.Atoi suffix = inr id →
  Body r = Some v →
  Decode_Todo zero_time time_UnmarshalJSON (Body r) = inr todo →
  Update (with_ID id todo) db = (db', None) →
  handle_todo zero_time time_UnmarshalJSON r db =
    (db', Responded (mkResponse 200 (EncodedTodo (with_ID id todo)))).
Proof.
  intros Hm Hp Hid _ Hdec Hupd. unfold handle_todo.
  rewrite Hp, slice_from_prefix, Hid, Hm. simpl.
  by rewrite Hdec, Hupd.
Qed.

(** C6: when the part of the path after "/todos/" is not accepted by
    [Atoi], the handler answers 400 with the text of that error,
    whatever the method and the body, touches no storage, and so
    answers neither 500 nor any other status. *)
Theorem bad_id_is_400
    (r : Request) (db : DB Time) (suffix : string) (e : strconv.NumError) :
  Path r = "/todos/" +:+ suffix →
  strconv.Atoi suffix = inl e →
  handle_todo zero_time time_UnmarshalJSON r db =
    (db, Responded (mkResponse 400 (Line (ErrorText (ErrNum e))))) ∧
  ∀ resp,
    (handle_todo zero_time time_UnmarshalJSON r db).2 = Responded resp →
    Status resp = 400 ∧ Status resp ≠ 500.
Proof.
  intros Hp He.
  assert (handle_todo zero_time time_UnmarshalJSON r db =
    (db, Responded (mkResponse 400 (Line (ErrorText (ErrNum e)))))) as H.
  { unfold handle_todo. by rewrite Hp, slice_from_prefix, He. }
  split; [done|]. rewrite H. by intros resp [= <-].
Qed.

(** C9 (as amended): a POST to /todos whose body is an object that
    decodes without error and has no member for [title], or only empty
    ones, is answered 200 with the created Todo when the engine has no
    fault and an id is left; the Todo has the empty title and is not
    completed, and its row is added to the table under a new id. *)
Theorem POST_without_title
    (r : Request) (db : DB Time) (ms : list (string * json))
    (todo : Todo Time) (id : Z) :
  Method r = "POST" →
  Body r = Some (JObject ms) →
  title_absent_or_empty ms = true →
  Decode_Todo_ptr zero_time time_UnmarshalJSON (Body r) = inr (Some todo) →
  fault db = None →
  next_rowid db = Some id →
  ∃ db',
    handle_todos zero_time time_UnmarshalJSON r db =
      (db', Responded (mkResponse 200
                         (EncodedTodo (mkTodo id "" false (now db))))) ∧
    todos db !! id = None ∧
    todos db' = <[id := mkRow "" false (now db)]> (todos db) ∧
    GetByID id db' = inr (mkTodo id "" false (now db)).
Proof.
  intros Hm Hb Hms Hdec Hf Hid.
  assert (Title todo = "") as Ht.
  { rewrite Hb in Hdec. simpl in Hdec.
    destruct (store_members time_UnmarshalJSON ms (zero_Todo zero_time) None)
      as [t1 [e|]|e] eqn:Hrun; try discriminate.
    injection Hdec as <-.
    by apply (store_members_title ms Hms _ _ _ _ Hrun). }
  unfold handle_todos. rewrite Hm. simpl. rewrite Hdec, Ht.
  rewrite (Create_ok "" db id Hf Hid).
  eexists. split; [done|]. simpl. repeat split.
  - by apply next_rowid_fresh.
  - unfold GetByID, query_row. simpl. by rewrite lookup_insert_eq.
Qed.

(** C10: the body [null] is a JSON document that decodes without error
    into a nil pointer, and on it the POST handler of /todos neither
    answers 400 or 500 nor anything else: it panics on [todo.Title],
    whatever the path and the storage, which it leaves untouched. *)
Theorem POST_null_panics :
  ∃ v : json,
    Decode_Todo_ptr zero_time time_UnmarshalJSON (Some v) = inr None ∧
    ∀ (path : string) (db : DB Time),
      handle_todos zero_time time_UnmarshalJSON
        (mkRequest "POST" path (Some v)) db = (db, Panicked) ∧
      ∀ resp,
        (handle_todos zero_time time_UnmarshalJSON
           (mkRequest "POST" path (Some v)) db).2 ≠ Responded resp.
Proof. exists JNull. split; [done|]. intros path db. by split. Qed.

(** * Further properties of the storage layer *)

Lemma GetByID_ok (id : Z) (db : DB Time) :
  fault db = None →
  GetByID id db = match todos db !! id with
                  | Some r => inr (scan (id, r))
                  | None => inl ErrNoRows
                  end.
Proof.
  intros Hf. unfold GetByID, query_row. rewrite Hf.
  by destruct (todos db !! id).
Qed.

Lemma GetByID_fault (id : Z) (db : DB Time) (e : engine_error) :
  fault db = Some e → GetByID id db = inl (ErrEngine e).
Proof. intros Hf. unfold GetByID, query_row. by rewrite Hf. Qed.

(** X1: the list that [GetAll] returns holds exactly the stored Todos
    (those that [GetByID] returns under their id), and no two of its
    members have the same id. *)
Theorem GetAll_exactly_stored (db : DB Time) (l : list (Todo Time)) :
  GetAll db = inr l →
  (∀ t, t ∈ l ↔ GetByID (ID t) db = inr t) ∧ NoDup (ID <$> l).
Proof.
  intros Hall. split.
  - intros t. by apply GetAll_GetByID.
  - unfold GetAll, query_all in Hall.
    destruct (fault db); [discriminate|]. injection Hall as <-.
    rewrite <-list_fmap_compose.
    replace (ID ∘ scan) with (fst : Z * Row Time → Z) by done.
    apply NoDup_fst_map_to_list.
Qed.

(** X2: a Todo that [GetByID] returns has the id asked for and is the
    row stored under it; [GetByID] fails with [sql.ErrNoRows] exactly
    when the engine works and no row has the id, and with the engine's
    error exactly when the engine has a fault. *)
Theorem GetByID_cases (id : Z) (db : DB Time) :
  (∀ t, GetByID id db = inr t ↔
        fault db = None ∧ ID t = id ∧
        todos db !! id = Some (mkRow (Title t) (Completed t) (CreatedAt t))) ∧
  (GetByID id db = inl ErrNoRows ↔ fault db = None ∧ todos db !! id = None) ∧
  (∀ e, GetByID id db = inl (ErrEngine e) ↔ fault db = Some e).
Proof.
  destruct (fault db) as [e|] eqn:Hf.
  - rewrite (GetByID_fault id db e Hf). split; [|split].
    + intros t. split; [discriminate|]. by intros [? _].
    + split; [discriminate|]. by intros [? _].
    + intros e'. split; congruence.
  - rewrite (GetByID_ok id db Hf).
    destruct (todos db !! id) as [r|] eqn:Hrow; (split; [|split]).
    + intros t. split.
      * intros [= <-]. by destruct r.
      * intros (_ & <- & [= ->]). by destruct t.
    + split; [discriminate|]. by intros [_ ?].
    + intros e. split; discriminate.
    + intros t. split; [discriminate|]. by intros (_ & _ & ?).
    + done.
    + intros e. split; discriminate.
Qed.

(** Every call of the store leaves the AUTOINCREMENT counter where it
    was or moves it up. *)
Lemma Create_seq (T : string) (db db' : DB Time) (t : Todo Time) :
  Create T db = (db', inr t) → seq db < ID t ∧ seq db' = ID t.
Proof.
  intros (id & Hins & Hget)%Create_inv.
  apply exec_insert_inv in Hins as (Hf & Hid & ->).
  unfold GetByID, query_row in Hget. simpl in Hget.
  rewrite lookup_insert_eq in Hget. injection Hget as <-. simpl.
  split; [|done]. by apply next_rowid_fresh.
Qed.

Lemma Create_failed (T : string) (db db' : DB Time) (err : error) :
  Create T db = (db', inl err) → db' = db.
Proof.
  unfold Create, exec_insert.
  destruct (fault db) as [e|] eqn:Hf; [by intros [= <-]|].
  destruct (next_rowid db) as [id|]; [|by intros [= <-]].
  unfold GetByID, query_row. simpl. by rewrite lookup_insert_eq.
Qed.

Lemma store_step_seq (c : store_call Time) (db : DB Time) :
  seq db ≤ seq (store_step c db).
Proof.
  destruct c as [T|todo|id]; simpl.
  - destruct (Create T db) as [db' [err|t]] eqn:Hc; simpl.
    + by rewrite (Create_failed _ _ _ _ Hc).
    + apply Create_seq in Hc. lia.
  - destruct (fault db) as [e|] eqn:Hf.
    + by rewrite (Update_fault todo db e Hf).
    + rewrite (Update_ok todo db Hf). by destruct (todos db !! ID todo).
  - destruct (fault db) as [e|] eqn:Hf.
    + by rewrite (Delete_fault id db e Hf).
    + rewrite (Delete_ok id db Hf). by destruct (todos db !! id).
Qed.

Lemma store_steps_seq (cs : list (store_call Time)) (db : DB Time) :
  seq db ≤ seq (store_steps cs db).
Proof.
  revert db. induction cs as [|c cs IH]; intros db; simpl; [lia|].
  pose proof (store_step_seq c db). specialize (IH (store_step c db)). lia.
Qed.

(** X3: ids are never handed out twice: a Todo that [Create] returns
    after any further calls of [Create], [Update] and [Delete] has a
    larger id than a Todo that [Create] returned before them, also when
    the earlier Todo has been deleted in between. *)
Theorem Create_ids_increase
    (T1 T2 : string) (cs : list (store_call Time))
    (db db1 db2 : DB Time) (t1 t2 : Todo Time) :
  Create T1 db = (db1, inr t1) →
  Create T2 (store_steps cs db1) = (db2, inr t2) →
  ID t1 < ID t2.
Proof.
  intros [_ H1]%Create_seq [H2 _]%Create_seq.
  pose proof (store_steps_seq cs db1). lia.
Qed.

(** X4: of two calls of [Update] for the same id, one after the other,
    only the second shows: storage and result are those of the second
    call alone (so calling [Update] twice with one Todo is the same as
    calling it once). *)
Theorem Update_last_wins (t1 t2 : Todo Time) (db : DB Time) :
  ID t1 = ID t2 →
  Update t2 (Update t1 db).1 = Update t2 db.
Proof.
  intros Hid. destruct (fault db) as [e|] eqn:Hf.
  - by rewrite (Update_fault t1 db e Hf).
  - rewrite (Update_ok t1 db Hf), Hid.
    destruct (todos db !! ID t2) as [old|] eqn:Hold; simpl; [|done].
    rewrite !Update_ok by (simpl; done). simpl.
    rewrite lookup_insert_eq, Hold. simpl. by rewrite insert_insert_eq.
Qed.

(** X5: [Delete] touches no row under another id and not the
    AUTOINCREMENT counter, and a second [Delete] of the same id changes
    nothing any more. *)
Theorem Delete_only_that_row (id : Z) (db : DB Time) :
  let db' := (Delete id db).1 in
  (∀ id', id' ≠ id → GetByID id' db' = GetByID id' db) ∧
  (∀ id', id' ≠ id → todos db' !! id' = todos db !! id') ∧
  seq db' = seq db ∧
  (Delete id db').1 = db'.
Proof.
  simpl. destruct (fault db) as [e|] eqn:Hf.
  - rewrite (Delete_fault id db e Hf). simpl.
    by rewrite (Delete_fault id db e Hf).
  - rewrite (Delete_ok id db Hf).
    destruct (todos db !! id) as [r|] eqn:Hr; simpl.
    + repeat split.
      * intros id' Hne. rewrite !GetByID_ok by done. simpl.
        by rewrite lookup_delete_ne.
      * intros id' Hne. by rewrite lookup_delete_ne.
      * rewrite Delete_ok by done. simpl. by rewrite lookup_delete_eq.
    + repeat split; try done. by rewrite (Delete_ok id db Hf), Hr.
Qed.

(** X6: a [Create] followed by a [Delete] of the Todo it returned
    leaves the rows of the table as they were before the [Create], but
    the id stays used up: the counter now stands at it. *)
Theorem Create_then_Delete (T : string) (db db1 : DB Time) (t : Todo Time) :
  Create T db = (db1, inr t) →
  ∃ db2, Delete (ID t) db1 = (db2, None) ∧
         todos db2 = todos db ∧ seq db2 = ID t ∧ seq db < ID t.
Proof.
  intros (id & Hins & Hget)%Create_inv.
  apply exec_insert_inv in Hins as (Hf & Hid & ->).
  unfold GetByID, query_row in Hget. simpl in Hget.
  rewrite lookup_insert_eq in Hget. injection Hget as <-. simpl.
  apply next_rowid_fresh in Hid as (Hfresh & Hlt & _).
  rewrite Delete_ok by done. simpl. rewrite lookup_insert_eq.
  eexists. split; [done|]. simpl.
  by rewrite delete_insert_id.
Qed.

Lemma foldr_max_in (l : list Z) (top : Z) :
  foldr (λ k acc, Some (from_option (Z.max k) k acc)) None l = Some top →
  top ∈ l.
Proof.
  revert top. induction l as [|x l IH]; intros top Hfold; [discriminate|].
  simpl in Hfold. injection Hfold as <-.
  destruct (foldr _ None l) as [top'|] eqn:Hl; simpl.
  - destruct (Z.max_spec x top') as [[_ ->]|[_ ->]].
    + apply list_elem_of_further. by apply IH.
    + apply list_elem_of_here.
  - apply list_elem_of_here.
Qed.

(** The largest id of a table is the id of one of its rows. *)
Lemma max_rowid_attained (m : gmap Z (Row Time)) (top : Z) :
  max_rowid m = Some top → ∃ r, m !! top = Some r.
Proof.
  intros Htop%foldr_max_in.
  apply list_elem_of_fmap in Htop as ([k r] & -> & Hin).
  exists r. by apply elem_of_map_to_list.
Qed.

Lemma store_step_well_numbered (c : store_call Time) (db : DB Time) :
  well_numbered db → well_numbered (store_step c db).
Proof.
  intros [Hids Hseq]. destruct c as [T|todo|id]; simpl.
  - destruct (Create T db) as [db' [err|t]] eqn:Hc; simpl.
    + by rewrite (Create_failed _ _ _ _ Hc).
    + apply Create_inv in Hc as (id & Hins & _).
      apply exec_insert_inv in Hins as (Hf & Hid & ->).
      apply next_rowid_fresh in Hid as (_ & Hlt & Hle).
      split; simpl; [|lia]. intros id' r.
      destruct (decide (id = id')) as [<-|Hne].
      * intros _. lia.
      * rewrite lookup_insert_ne by done. intros Hr%Hids. lia.
  - destruct (fault db) as [e|] eqn:Hf.
    + by rewrite (Update_fault todo db e Hf).
    + rewrite (Update_ok todo db Hf).
      destruct (todos db !! ID todo) as [old|] eqn:Hold; [|done].
      split; simpl; [|done]. intros id' r.
      destruct (decide (ID todo = id')) as [<-|Hne].
      * intros _. by apply (Hids _ old).
      * rewrite lookup_insert_ne by done. apply Hids.
  - destruct (fault db) as [e|] eqn:Hf.
    + by rewrite (Delete_fault id db e Hf).
    + rewrite (Delete_ok id db Hf).
      destruct (todos db !! id) as [old|] eqn:Hold; [|done].
      split; simpl; [|done]. intros id' r Hr.
      apply lookup_delete_Some in Hr as [_ Hr]. by apply (Hids _ r).
Qed.

(** X7: when every stored id is between 1 and the AUTOINCREMENT counter,
    this stays so under any calls of [Create], [Update] and [Delete], and
    a Todo that [Create] returns then has the id just after the
    counter. *)
Theorem ids_stay_numbered
    (cs : list (store_call Time)) (T : string)
    (db db' : DB Time) (t : Todo Time) :
  well_numbered db →
  well_numbered (store_steps cs db) ∧
  (Create T (store_steps cs db) = (db', inr t) →
   ID t = seq (store_steps cs db) + 1).
Proof.
  intros Hwn.
  assert (well_numbered (store_steps cs db)) as Hwn'.
  { clear T db' t. revert db Hwn.
    induction cs as [|c cs IH]; intros db Hwn; simpl; [done|].
    by apply IH, store_step_well_numbered. }
  split; [done|].
  intros (id & Hins & Hget)%Create_inv.
  apply exec_insert_inv in Hins as (Hf & Hid & ->).
  unfold GetByID, query_row in Hget. simpl in Hget.
  rewrite lookup_insert_eq in Hget. injection Hget as <-. simpl.
  destruct Hwn' as [Hids Hseq]. unfold next_rowid in Hid.
  destruct (max_rowid (todos (store_steps cs db))) as [top|] eqn:Htop.
  - destruct (max_int64 <=? top); [discriminate|].
    destruct (max_int64 <=? seq _); [discriminate|].
    injection Hid as <-.
    apply max_rowid_attained in Htop as [r' Hr']. apply Hids in Hr'. lia.
  - destruct (max_int64 <=? seq _); [discriminate|].
    injection Hid as <-. lia.
Qed.

(** * Further properties of the handlers *)

Lemma slice_from_None (n : nat) (s : string) :
  slice_from n s = None ↔ (String.length s < n)%nat.
Proof.
  revert s. induction n as [|n IH]; intros s; simpl.
  - split; [discriminate|lia].
  - destruct s as [|c s]; simpl.
    + split; [lia|done].
    + rewrite IH. lia.
Qed.

Lemma Decode_Todo_ptr_nil (body : option json) :
  Decode_Todo_ptr zero_time time_UnmarshalJSON body = inr None ↔
  body = Some JNull.
Proof.
  unfold Decode_Todo_ptr. destruct body as [v|]; [|done].
  destruct v; try done;
    destruct (unmarshal_struct _ _ _); split; discriminate.
Qed.

(** The storage effect of a handler call is that of at most one call of
    the store. *)
Lemma serve_store_step (c : call) (db : DB Time) :
  (serve zero_time time_UnmarshalJSON c db).1 = db ∨
  ∃ sc, (serve zero_time time_UnmarshalJSON c db).1 = store_step sc db.
Proof.
  destruct c as [r|r]; simpl.
  - unfold handle_todos.
    destruct (String.eqb (Method r) "GET").
    { destruct (GetAll db); by left. }
    destruct (String.eqb (Method r) "POST"); [|by left].
    destruct (Decode_Todo_ptr _ _ _) as [err|[todo|]]; [by left| |by left].
    right. exists (CallCreate (Title todo)). simpl.
    by destruct (Create (Title todo) db) as [db' [err|t]].
  - unfold handle_todo.
    destruct (slice_from _ _) as [suffix|]; [|by left].
    destruct (strconv.Atoi suffix) as [err|id]; [by left|].
    destruct (String.eqb (Method r) "GET").
    { destruct (GetByID id db); by left. }
    destruct (String.eqb (Method r) "PUT").
    { destruct (Decode_Todo _ _ _) as [err|todo]; [by left|].
      right. exists (CallUpdate (with_ID id todo)). simpl.
      by destruct (Update (with_ID id todo) db) as [db' [err|]]. }
    destruct (String.eqb (Method r) "DELETE"); [|by left].
    right. exists (CallDelete id). simpl.
    by destruct (Delete id db) as [db' [err|]].
Qed.

Lemma serve_seq (c : call) (db : DB Time) :
  seq db ≤ seq (serve zero_time time_UnmarshalJSON c db).1.
Proof.
  destruct (serve_store_step c db) as [->|[sc ->]]; [lia|].
  apply store_step_seq.
Qed.

Lemma serve_all_seq (cs : list call) (db : DB Time) :
  seq db ≤ seq (serve_all zero_time time_UnmarshalJSON cs db).
Proof.
  revert db. induction cs as [|c cs IH]; intros db; simpl; [lia|].
  pose proof (serve_seq c db).
  specialize (IH (serve zero_time time_UnmarshalJSON c db).1). lia.
Qed.

(** What a POST that is answered with a Todo has done. *)
Lemma POST_inv (r : Request) (db db' : DB Time) (t : Todo Time) :
  handle_todos zero_time time_UnmarshalJSON r db
    = (db', Responded (mkResponse 200 (EncodedTodo t))) →
  ∃ todo,
    Method r = "POST" ∧
    Decode_Todo_ptr zero_time time_UnmarshalJSON (Body r) = inr (Some todo) ∧
    Create (Title todo) db = (db', inr t).
Proof.
  unfold handle_todos.
  destruct (String.eqb (Method r) "GET") eqn:Hget.
  { destruct (GetAll db); discriminate. }
  destruct (String.eqb (Method r) "POST") eqn:Hpost; [|discriminate].
  apply String.eqb_eq in Hpost.
  destruct (Decode_Todo_ptr _ _ _) as [err|[todo|]]; try discriminate.
  destruct (Create (Title todo) db) as [db1 [err|t1]] eqn:Hc; [discriminate|].
  intros [= <- <-]. eauto.
Qed.

(** X8: whatever the request and the storage, a handler that answers
    does so with status 200, 400, 405 or 500. *)
Theorem statuses (c : call) (db : DB Time) (resp : Response Time) :
  (serve zero_time time_UnmarshalJSON c db).2 = Responded resp →
  Status resp = 200 ∨ Status resp = 400 ∨ Status resp = 405 ∨ Status resp = 500.
Proof.
  destruct c as [r|r]; simpl.
  - unfold handle_todos.
    destruct (String.eqb (Method r) "GET").
    { destruct (GetAll db); intros [= <-]; simpl; auto. }
    destruct (String.eqb (Method r) "POST"); [|intros [= <-]; simpl; auto].
    destruct (Decode_Todo_ptr _ _ _) as [err|[todo|]]; simpl;
      [intros [= <-]; simpl; auto| |discriminate].
    destruct (Create (Title todo) db) as [db' [err|t]];
      intros [= <-]; simpl; auto.
  - unfold handle_todo.
    destruct (slice_from _ _) as [suffix|]; [|discriminate].
    destruct (strconv.Atoi suffix) as [err|id]; [intros [= <-]; simpl; auto|].
    destruct (String.eqb (Method r) "GET").
    { destruct (GetByID id db); intros [= <-]; simpl; auto. }
    destruct (String.eqb (Method r) "PUT").
    { destruct (Decode_Todo _ _ _) as [err|todo];
        [intros [= <-]; simpl; auto|].
      destruct (Update (with_ID id todo) db) as [db' [err|]];
        intros [= <-]; simpl; auto. }
    destruct (String.eqb (Method r) "DELETE"); [|intros [= <-]; simpl; auto].
    destruct (Delete id db) as [db' [err|]]; intros [= <-]; simpl; auto.
Qed.

(** X9: the handler of /todos panics exactly on a POST whose body is
    the JSON document [null]; the handler of /todos/ panics exactly on
    a path shorter than the seven bytes of its pattern (which the server
    never routes to it). *)
Theorem panics_exactly (r : Request) (db : DB Time) :
  ((handle_todos zero_time time_UnmarshalJSON r db).2 = Panicked ↔
   Method r = "POST" ∧ Body r = Some JNull) ∧
  ((handle_todo zero_time time_UnmarshalJSON r db).2 = Panicked ↔
   (String.length (Path r) < 7)%nat).
Proof.
  split.
  - unfold handle_todos. rewrite <-Decode_Todo_ptr_nil.
    destruct (String.eqb (Method r) "GET") eqn:Hget.
    { apply String.eqb_eq in Hget.
      destruct (GetAll db); (split; [discriminate|]);
        intros [Hm _]; by rewrite Hm in Hget. }
    destruct (String.eqb (Method r) "POST") eqn:Hpost.
    + apply String.eqb_eq in Hpost.
      destruct (Decode_Todo_ptr _ _ _) as [err|[todo|]]; simpl.
      * split; [discriminate|]. by intros [_ ?].
      * destruct (Create (Title todo) db) as [db' [err|t]];
          (split; [discriminate|]); by intros [_ ?].
      * done.
    + apply String.eqb_neq in Hpost. split; [discriminate|]. by intros [? _].
  - rewrite <-(slice_from_None 7). unfold handle_todo.
    change (String.length "/todos/") with 7%nat.
    destruct (slice_from 7 (Path r)) as [suffix|]; [|by split].
    split; [|discriminate].
    destruct (strconv.Atoi suffix) as [err|id]; [discriminate|].
    destruct (String.eqb (Method r) "GET").
    { destruct (GetByID id db); discriminate. }
    destruct (String.eqb (Method r) "PUT").
    { destruct (Decode_Todo _ _ _) as [err|todo]; [discriminate|].
      destruct (Update (with_ID id todo) db) as [db' [err|]]; discriminate. }
    destruct (String.eqb (Method r) "DELETE"); [|discriminate].
    destruct (Delete id db) as [db' [err|]]; discriminate.
Qed.

(** X10: a method that a handler does not serve is answered 405 with
    the text "Method not allowed", without a look at the body or the
    storage: on /todos every method but GET and POST, on /todos/<id>,
    once the id has parsed, every method but GET, PUT and DELETE.
    Methods are compared as they are written. *)
Theorem method_not_allowed
    (r : Request) (db : DB Time) (suffix : string) (id : Z) :
  (Method r ≠ "GET" → Method r ≠ "POST" →
   handle_todos zero_time time_UnmarshalJSON r db
     = (db, Responded (mkResponse 405 (Line (Text "Method not allowed"))))) ∧
  (Path r = "/todos/" +:+ suffix → strconv.Atoi suffix = inr id →
   Method r ≠ "GET" → Method r ≠ "PUT" → Method r ≠ "DELETE" →
   handle_todo zero_time time_UnmarshalJSON r db
     = (db, Responded (mkResponse 405 (Line (Text "Method not allowed"))))).
Proof.
  split.
  - intros Hg%String.eqb_neq Hp%String.eqb_neq.
    unfold handle_todos. by rewrite Hg, Hp.
  - intros Hpath Hid Hg%String.eqb_neq Hp%String.eqb_neq Hd%String.eqb_neq.
    unfold handle_todo. by rewrite Hpath, slice_from_prefix, Hid, Hg, Hp, Hd.
Qed.

(** X11: the storage changes only through a POST to /todos or through
    a PUT or DELETE to /todos/ that is answered 200; every other
    request, and every PUT or DELETE answered otherwise, leaves it as
    it is. *)
Theorem storage_changes_only_by (c : call) (db : DB Time) :
  (serve zero_time time_UnmarshalJSON c db).1 ≠ db →
  match c with
  | ToTodos r => Method r = "POST"
  | ToTodo r =>
      (Method r = "PUT" ∨ Method r = "DELETE") ∧
      ∃ resp, (handle_todo zero_time time_UnmarshalJSON r db).2
                = Responded resp ∧ Status resp = 200
  end.
Proof.
  destruct c as [r|r]; simpl.
  - unfold handle_todos.
    destruct (String.eqb (Method r) "GET").
    { by destruct (GetAll db). }
    destruct (String.eqb (Method r) "POST") eqn:Hpost; [|done].
    intros _. by apply String.eqb_eq.
  - unfold handle_todo.
    destruct (slice_from _ _) as [suffix|]; [|done].
    destruct (strconv.Atoi suffix) as [err|id]; [done|].
    destruct (String.eqb (Method r) "GET").
    { by destruct (GetByID id db). }
    destruct (String.eqb (Method r) "PUT") eqn:Hput.
    { apply String.eqb_eq in Hput.
      destruct (Decode_Todo _ _ _) as [err|todo]; [done|].
      destruct (fault db) as [e|] eqn:Hf.
      - by rewrite (Update_fault _ db e Hf).
      - rewrite (Update_ok _ db Hf). simpl. intros _. split; [by left|].
        by eexists. }
    destruct (String.eqb (Method r) "DELETE") eqn:Hdel; [|done].
    apply String.eqb_eq in Hdel.
    destruct (fault db) as [e|] eqn:Hf.
    + by rewrite (Delete_fault _ db e Hf).
    + rewrite (Delete_ok _ db Hf). simpl. intros _. split; [by right|].
      by eexists.
Qed.

(** X12: an id that is not stored is never reported as such: on a
    working engine GET answers 500 with the text of [sql.ErrNoRows],
    DELETE answers 200 with an empty body, and PUT answers 200 with the
    Todo of the request; none of them changes the storage. *)
Theorem missing_id_responses
    (r : Request) (db : DB Time) (suffix : string) (id : Z) :
  Path r = "/todos/" +:+ suffix →
  strconv.Atoi suffix = inr id →
  fault db = None →
  todos db !! id = None →
  (Method r = "GET" →
   handle_todo zero_time time_UnmarshalJSON r db
     = (db, Responded (mkResponse 500 (Line (ErrorText ErrNoRows))))) ∧
  (Method r = "DELETE" →
   handle_todo zero_time time_UnmarshalJSON r db
     = (db, Responded (mkResponse 200 NoBody))) ∧
  (Method r = "PUT" →
   ∀ todo, Decode_Todo zero_time time_UnmarshalJSON (Body r) = inr todo →
     handle_todo zero_time time_UnmarshalJSON r db
       = (db, Responded (mkResponse 200 (EncodedTodo (with_ID id todo))))).
Proof.
  intros Hpath Hid Hf Hrow. unfold handle_todo.
  rewrite Hpath, slice_from_prefix, Hid. repeat split.
  - intros ->. simpl. by rewrite (GetByID_ok id db Hf), Hrow.
  - intros ->. simpl. by rewrite (Delete_ok id db Hf), Hrow.
  - intros -> todo Hdec. simpl.
    rewrite Hdec, (Update_ok _ db Hf). simpl. by rewrite Hrow.
Qed.

(** What a successful [Create] returns and leaves behind. *)
Lemma Create_result (T : string) (db db' : DB Time) (t : Todo Time) :
  Create T db = (db', inr t) →
  fault db = None ∧ next_rowid db = Some (ID t) ∧
  t = mkTodo (ID t) T false (now db) ∧
  db' = {| todos := <[ID t := mkRow T false (now db)]> (todos db);
           seq := ID t; now := now db; fault := None |}.
Proof.
  intros (id & Hins & Hget)%Create_inv.
  apply exec_insert_inv in Hins as (Hf & Hid & ->).
  unfold GetByID, query_row in Hget. simpl in Hget.
  rewrite lookup_insert_eq in Hget. by injection Hget as <-.
Qed.

(** What a successful [Delete] leaves behind. *)
Lemma Delete_removes (id : Z) (db db' : DB Time) :
  Delete id db = (db', None) → fault db' = None ∧ todos db' !! id = None.
Proof.
  intros Hdel. pose proof (Delete_success_inv _ _ _ Hdel) as Hf.
  rewrite (Delete_ok id db Hf) in Hdel. injection Hdel as <-.
  destruct (todos db !! id) eqn:Hrow; simpl; [|done].
  by rewrite lookup_delete_eq.
Qed.

(** What a request to /todos/ that is answered 200 was. *)
Lemma handle_todo_200 (r : Request) (db db' : DB Time) (resp : Response Time) :
  handle_todo zero_time time_UnmarshalJSON r db = (db', Responded resp) →
  Status resp = 200 →
  ∃ suffix id,
    slice_from 7 (Path r) = Some suffix ∧ strconv.Atoi suffix = inr id ∧
    ((Method r = "GET" ∧ db' = db ∧
      ∃ t, GetByID id db = inr t ∧ Payload resp = EncodedTodo t) ∨
     (Method r = "PUT" ∧
      ∃ todo, Decode_Todo zero_time time_UnmarshalJSON (Body r) = inr todo ∧
              Update (with_ID id todo) db = (db', None) ∧
              Payload resp = EncodedTodo (with_ID id todo)) ∨
     (Method r = "DELETE" ∧ Delete id db = (db', None) ∧
      Payload resp = NoBody)).
Proof.
  unfold handle_todo. change (String.length "/todos/") with 7%nat.
  destruct (slice_from 7 (Path r)) as [suffix|]; [|discriminate].
  destruct (strconv.Atoi suffix) as [err|id] eqn:Ha;
    [intros [= <- <-] Hst; by cbv in Hst|].
  intros H Hst. exists suffix, id. split; [done|]. split; [done|].
  destruct (String.eqb (Method r) "GET") eqn:Hget.
  { apply String.eqb_eq in Hget. left.
    destruct (GetByID id db) as [err|t] eqn:Hg; injection H as <- <-;
      [by cbv in Hst|].
    split; [done|]. split; [done|]. by exists t. }
  destruct (String.eqb (Method r) "PUT") eqn:Hput.
  { apply String.eqb_eq in Hput. right. left.
    destruct (Decode_Todo _ _ _) as [err|todo] eqn:Hdec;
      [injection H as <- <-; by cbv in Hst|].
    destruct (Update (with_ID id todo) db) as [db1 [err|]] eqn:Hupd;
      injection H as <- <-; [by cbv in Hst|].
    split; [done|]. by exists todo. }
  destruct (String.eqb (Method r) "DELETE") eqn:Hdel;
    [|injection H as <- <-; by cbv in Hst].
  apply String.eqb_eq in Hdel. right. right.
  destruct (Delete id db) as [db1 [err|]] eqn:Hd;
    injection H as <- <-; [by cbv in Hst|]. done.
Qed.

(** X13: after a PUT to the path of a stored Todo has been answered
    200, a GET of the same path is answered 200 with the title and the
    completed flag of the PUT's body under the id of the path and with
    the creation time that was stored, whatever the PUT's body said
    about id and creation time. *)
Theorem PUT_then_GET
    (put get : Request) (db db' : DB Time) (resp : Response Time)
    (suffix : string) (id : Z) (todo : Todo Time) (old : Row Time) :
  Method put = "PUT" →
  Path put = "/todos/" +:+ suffix →
  strconv.Atoi suffix = inr id →
  Decode_Todo zero_time time_UnmarshalJSON (Body put) = inr todo →
  todos db !! id = Some old →
  handle_todo zero_time time_UnmarshalJSON put db = (db', Responded resp) →
  Status resp = 200 →
  Method get = "GET" →
  Path get = Path put →
  handle_todo zero_time time_UnmarshalJSON get db' =
    (db', Responded (mkResponse 200
            (EncodedTodo (mkTodo id (Title todo) (Completed todo)
                                 (created_at old))))).
Proof.
  intros Hput Hpath Hid Hdec Hold Hrun Hst Hget Hpath'.
  apply handle_todo_200 in Hrun as (suffix' & id' & Hs & Ha & Hcase); [|done].
  rewrite Hpath in Hs. change 7%nat with (String.length "/todos/") in Hs.
  rewrite slice_from_prefix in Hs. injection Hs as <-.
  rewrite Hid in Ha. injection Ha as <-.
  destruct Hcase as [(Hm & _)|[(_ & todo' & Hdec' & Hupd & _)|(Hm & _)]];
    [by rewrite Hput in Hm| |by rewrite Hput in Hm].
  rewrite Hdec in Hdec'. injection Hdec' as <-.
  pose proof (Update_success_inv _ _ _ Hupd) as Hf.
  rewrite (Update_ok _ db Hf) in Hupd. simpl in Hupd. rewrite Hold in Hupd.
  injection Hupd as <-.
  unfold handle_todo. rewrite Hpath', Hpath, slice_from_prefix, Hid, Hget.
  simpl. rewrite GetByID_ok by done. simpl. by rewrite lookup_insert_eq.
Qed.

(** X14: after a DELETE has been answered 200, a GET of the same path
    is answered 500 with the text of [sql.ErrNoRows]. *)
Theorem DELETE_then_GET
    (del get : Request) (db db' : DB Time) (resp : Response Time) :
  Method del = "DELETE" →
  handle_todo zero_time time_UnmarshalJSON del db = (db', Responded resp) →
  Status resp = 200 →
  Method get = "GET" →
  Path get = Path del →
  handle_todo zero_time time_UnmarshalJSON get db' =
    (db', Responded (mkResponse 500 (Line (ErrorText ErrNoRows)))).
Proof.
  intros Hdel Hrun Hst Hget Hpath.
  apply handle_todo_200 in Hrun as (suffix & id & Hs & Ha & Hcase); [|done].
  destruct Hcase as [(Hm & _)|[(Hm & _)|(_ & Hd & _)]];
    [by rewrite Hdel in Hm|by rewrite Hdel in Hm|].
  apply Delete_removes in Hd as [Hf Hrow].
  unfold handle_todo. change (String.length "/todos/") with 7%nat.
  rewrite Hpath, Hs, Ha, Hget. simpl.
  by rewrite (GetByID_ok id db' Hf), Hrow.
Qed.

(** X15: a POST that is answered 200 has created a Todo with the title
    of the body, not completed, created now, under an id above the
    counter that no row had, whatever the body said about id, completed
    flag and creation time; the answer is that Todo, and [GetByID] and
    [GetAll] return it afterwards. *)
Theorem POST_created
    (r : Request) (db db' : DB Time) (resp : Response Time) :
  Method r = "POST" →
  handle_todos zero_time time_UnmarshalJSON r db = (db', Responded resp) →
  Status resp = 200 →
  ∃ todo t,
    Decode_Todo_ptr zero_time time_UnmarshalJSON (Body r) = inr (Some todo) ∧
    Payload resp = EncodedTodo t ∧
    Title t = Title todo ∧ Completed t = false ∧ CreatedAt t = now db ∧
    seq db < ID t ∧ todos db !! ID t = None ∧
    GetByID (ID t) db' = inr t ∧
    ∀ l, GetAll db' = inr l → t ∈ l.
Proof.
  intros Hm. unfold handle_todos. rewrite Hm. simpl.
  destruct (Decode_Todo_ptr _ _ _) as [err|[todo|]];
    [intros [= <- <-] Hst; by cbv in Hst| |discriminate].
  destruct (Create (Title todo) db) as [db1 [err|t]] eqn:Hc;
    [intros [= <- <-] Hst; by cbv in Hst|].
  intros [= <- <-] _. exists todo, t. split; [done|]. split; [done|].
  apply Create_result in Hc as (Hf & Hid & Ht & ->).
  destruct t as [tid ttl tdone tat]. simpl in *. injection Ht as -> -> ->.
  apply next_rowid_fresh in Hid as (Hfresh & Hlt & _).
  assert (GetByID tid
            {| todos := <[tid := mkRow (Title todo) false (now db)]> (todos db);
               seq := tid; now := now db; fault := None |}
          = inr (mkTodo tid (Title todo) false (now db))) as Hget.
  { rewrite GetByID_ok by done. simpl. by rewrite lookup_insert_eq. }
  repeat split; try done.
  intros l Hl. by apply (GetAll_GetByID _ _ _ Hl).
Qed.

(** X16: Todos created by POSTs have growing ids: whatever requests
    are served between two POSTs that are answered with a Todo, the
    later Todo has the larger id. *)
Theorem POST_ids_increase
    (r1 r2 : Request) (cs : list call)
    (db db1 db2 : DB Time) (t1 t2 : Todo Time) :
  handle_todos zero_time time_UnmarshalJSON r1 db
    = (db1, Responded (mkResponse 200 (EncodedTodo t1))) →
  handle_todos zero_time time_UnmarshalJSON r2
      (serve_all zero_time time_UnmarshalJSON cs db1)
    = (db2, Responded (mkResponse 200 (EncodedTodo t2))) →
  ID t1 < ID t2.
Proof.
  intros (todo1 & _ & _ & [_ H1]%Create_seq)%POST_inv
         (todo2 & _ & _ & [H2 _]%Create_seq)%POST_inv.
  pose proof (serve_all_seq cs db1). lia.
Qed.

(** X17: while requests are served, every stored id stays between 1 and
    the AUTOINCREMENT counter if it was so before, and the engine's
    condition stays what it was; so on a working engine a GET for an id
    below 1 is never answered with a Todo. *)
Theorem served_ids_numbered (cs : list call) (db : DB Time) :
  well_numbered db →
  well_numbered (serve_all zero_time time_UnmarshalJSON cs db) ∧
  fault (serve_all zero_time time_UnmarshalJSON cs db) = fault db ∧
  ∀ id, id < 1 → fault db = None →
        GetByID id (serve_all zero_time time_UnmarshalJSON cs db)
          = inl ErrNoRows.
Proof.
  intros Hwn.
  assert (well_numbered (serve_all zero_time time_UnmarshalJSON cs db) ∧
          fault (serve_all zero_time time_UnmarshalJSON cs db) = fault db)
    as [Hwn' Hfault].
  { revert db Hwn. induction cs as [|c cs IH]; intros db Hwn; simpl; [done|].
    destruct (serve_store_step c db) as [->|[sc ->]]; [by apply IH|].
    destruct (IH (store_step sc db)) as [IH1 IH2];
      [by apply store_step_well_numbered|].
    split; [done|]. rewrite IH2. clear.
    destruct sc as [T|todo|id]; simpl.
    - destruct (Create T db) as [db' [err|t]] eqn:Hc; simpl.
      + by rewrite (Create_failed _ _ _ _ Hc).
      + by apply Create_result in Hc as (-> & _ & _ & ->).
    - destruct (fault db) as [e|] eqn:Hf.
      + by rewrite (Update_fault todo db e Hf).
      + rewrite (Update_ok todo db Hf). by destruct (todos db !! ID todo).
    - destruct (fault db) as [e|] eqn:Hf.
      + by rewrite (Delete_fault id db e Hf).
      + rewrite (Delete_ok id db Hf). by destruct (todos db !! id). }
  split; [done|]. split; [done|].
  intros id Hid Hf. rewrite GetByID_ok by congruence.
  destruct (todos _ !! id) as [r|] eqn:Hr; [|done].
  apply Hwn' in Hr. lia.
Qed.

(** X18: PUT overwrites the whole Todo: when the body is an object
    without a title member (or with empty ones only) and the PUT is
    answered 200, a stored Todo under that id has the empty title
    afterwards, whatever its title was. *)
Theorem PUT_without_title_erases
    (r : Request) (db db' : DB Time) (resp : Response Time)
    (suffix : string) (id : Z) (ms : list (string * json)) (old : Row Time) :
  Method r = "PUT" →
  Path r = "/todos/" +:+ suffix →
  strconv.Atoi suffix = inr id →
  Body r = Some (JObject ms) →
  title_absent_or_empty ms = true →
  todos db !! id = Some old →
  handle_todo zero_time time_UnmarshalJSON r db = (db', Responded resp) →
  Status resp = 200 →
  ∃ t, GetByID id db' = inr t ∧ Title t = "" ∧ CreatedAt t = created_at old.
Proof.
  intros Hput Hpath Hid Hbody Hms Hold Hrun Hst.
  apply handle_todo_200 in Hrun as (suffix' & id' & Hs & Ha & Hcase); [|done].
  rewrite Hpath in Hs. change 7%nat with (String.length "/todos/") in Hs.
  rewrite slice_from_prefix in Hs. injection Hs as <-.
  rewrite Hid in Ha. injection Ha as <-.
  destruct Hcase as [(Hm & _)|[(_ & todo & Hdec & Hupd & _)|(Hm & _)]];
    [by rewrite Hput in Hm| |by rewrite Hput in Hm].
  assert (Title todo = "") as Ht.
  { rewrite Hbody in Hdec. simpl in Hdec.
    destruct (store_members time_UnmarshalJSON ms (zero_Todo zero_time) None)
      as [t1 [e|]|e] eqn:Hmem; try discriminate.
    injection Hdec as <-.
    by apply (store_members_title ms Hms _ _ _ _ Hmem). }
  pose proof (Update_success_inv _ _ _ Hupd) as Hf.
  rewrite (Update_ok _ db Hf) in Hupd. simpl in Hupd. rewrite Hold in Hupd.
  injection Hupd as <-. eexists.
  rewrite GetByID_ok by done. simpl. rewrite lookup_insert_eq.
  split; [done|]. by simpl.
Qed.

(** X27: a GET of /todos never changes the storage; on a working engine
    it is answered 200 with a list that holds exactly the stored Todos,
    as many as the table has rows, and on an engine with a fault it is
    answered 500 with the text of the engine's error. *)
Theorem GET_todos_lists (r : Request) (db : DB Time) :
  Method r = "GET" →
  (fault db = None →
   ∃ l, handle_todos zero_time time_UnmarshalJSON r db
          = (db, Responded (mkResponse 200 (EncodedTodos l))) ∧
        length l = size (todos db) ∧
        ∀ t, t ∈ l ↔ GetByID (ID t) db = inr t) ∧
  (∀ e, fault db = Some e →
        handle_todos zero_time time_UnmarshalJSON r db
          = (db, Responded (mkResponse 500 (Line (ErrorText (ErrEngine e)))))).
Proof.
  intros Hm. unfold handle_todos. rewrite Hm. simpl. split.
  - intros Hf. pose proof (GetAll_ok db Hf) as Hall. rewrite Hall.
    eexists. split; [done|]. split.
    + by apply GetAll_length.
    + intros t. by apply GetAll_GetByID.
  - intros e Hf. unfold GetAll, query_all. by rewrite Hf.
Qed.

(** * Further properties of the decoder *)

Lemma store_members_known (ms : list (string * json)) :
  ∀ t saved,
    store_members time_UnmarshalJSON (List.filter known_member ms) t saved
    = store_members time_UnmarshalJSON ms t saved.
Proof.
  induction ms as [|[key v] ms IH]; intros t saved; [done|].
  simpl. destruct (known_member (key, v)) eqn:Hknown; simpl.
  - destruct (store_member _ key v t saved); [apply IH|done].
  - unfold known_member in Hknown. simpl in Hknown. unfold store_member.
    destruct (field_of_key key); [discriminate|apply IH].
Qed.

(** X19: members whose key matches none of the four fields have no
    part in decoding: a body decodes as the same body without them
    does, into a struct (PUT) and into a pointer (POST). *)
Theorem unknown_members_ignored (ms : list (string * json)) :
  Decode_Todo zero_time time_UnmarshalJSON (Some (JObject ms))
  = Decode_Todo zero_time time_UnmarshalJSON
      (Some (JObject (List.filter known_member ms))) ∧
  Decode_Todo_ptr zero_time time_UnmarshalJSON (Some (JObject ms))
  = Decode_Todo_ptr zero_time time_UnmarshalJSON
      (Some (JObject (List.filter known_member ms))).
Proof. simpl. by rewrite store_members_known. Qed.

Lemma store_members_fits (ms : list (string * json)) :
  ∀ t saved,
    (∃ t', store_members time_UnmarshalJSON ms t saved = Going t' None) ↔
    saved = None ∧ forallb (member_fits time_UnmarshalJSON) ms = true.
Proof.
  induction ms as [|[key v] ms IH]; intros t saved; simpl.
  - split; [intros [t' [= _ ->]]; done|intros [-> _]; eauto].
  - unfold store_member, member_fits. simpl.
    destruct (field_of_key key) as [f|]; [|by rewrite IH].
    destruct f, v; simpl;
      try destruct (strconv.ParseInt _) as [e|n];
      try destruct (time_UnmarshalJSON _) as [tm|];
      rewrite ?IH; simpl;
      try (split; [by intros [t' ?]|by intros [_ ?]]);
      try done;
      (split; [intros [Hs _]; by destruct saved|by intros [_ ?]]).
Qed.

(** X20: an object is decoded without error exactly when each of its
    members fits: a member for a field that the handler does not use
    makes the decoding fail as well when its JSON type is wrong. *)
Theorem Decode_accepts_fitting (ms : list (string * json)) :
  (∃ todo, Decode_Todo zero_time time_UnmarshalJSON (Some (JObject ms))
           = inr todo) ↔
  forallb (member_fits time_UnmarshalJSON) ms = true.
Proof.
  simpl.
  pose proof (store_members_fits ms (zero_Todo zero_time) None) as Hfit.
  split.
  - intros [todo Hdec]. apply Hfit.
    destruct (store_members _ _ _ _) as [t [e|]|e]; try discriminate.
    by exists t.
  - intros Hall. destruct Hfit as [_ Hfit].
    destruct Hfit as [t' Ht']; [done|]. rewrite Ht'. by exists t'.
Qed.

(** * Properties of [strconv.Atoi] *)

(** The test of the fast path, [ch - '0' > 9] on bytes, holds exactly of
    the bytes that are no digits. *)
Lemma digit_wrap (c : ascii) :
  (9 <? (strconv.byte_val c - 48) mod 256) = negb (strconv.is_digit c).
Proof. by destruct c as [[] [] [] [] [] [] [] []]. Qed.

Lemma digit_not_sign (c : ascii) :
  strconv.is_digit c = true →
  Ascii.eqb c "-" = false ∧ Ascii.eqb c "+" = false.
Proof. by destruct c as [[] [] [] [] [] [] [] []]. Qed.

Lemma digit_value (c : ascii) :
  strconv.is_digit c = true → 0 ≤ strconv.byte_val c - 48 ≤ 9.
Proof. unfold strconv.is_digit. intros [H1 H2]%andb_true_iff. lia. Qed.

(** The loop of the fast path returns the number denoted, and fails
    exactly when a byte is no digit. *)
Lemma atoi_loop_spec (s : string) (n : Z) :
  strconv.atoi_loop s n =
    if strconv.all_digits s then Some (strconv.decimal_from s n) else None.
Proof.
  revert n. induction s as [|c s IH]; intros n; simpl; [done|].
  rewrite digit_wrap. destruct (strconv.is_digit c) eqn:Hc; simpl; [|done].
  rewrite Z.mod_small by (apply digit_value in Hc; lia). apply IH.
Qed.

Lemma decimal_from_ge (s : string) (n : Z) :
  strconv.all_digits s = true → 0 ≤ n → n ≤ strconv.decimal_from s n.
Proof.
  revert n. induction s as [|c s IH]; intros n; simpl; [lia|].
  intros [Hc Hs]%andb_true_iff Hn. apply digit_value in Hc.
  specialize (IH (n * 10 + (strconv.byte_val c - 48)) Hs). lia.
Qed.

(** A numeral of [k] digits denotes a number below 10^k. *)
Lemma decimal_from_lt (s : string) (n : Z) :
  strconv.all_digits s = true → 0 ≤ n →
  strconv.decimal_from s n < (n + 1) * 10 ^ Z.of_nat (String.length s).
Proof.
  revert n. induction s as [|c s IH]; intros n.
  - simpl. lia.
  - intros [Hc Hs]%andb_true_iff Hn. apply digit_value in Hc.
    cbn [strconv.decimal_from String.length].
    specialize (IH (n * 10 + (strconv.byte_val c - 48)) Hs).
    rewrite Nat2Z.inj_succ, Z.pow_succ_r by lia.
    assert (0 < 10 ^ Z.of_nat (String.length s)) by (apply Z.pow_pos_nonneg; lia).
    nia.
Qed.

(** On digits the loop of [ParseUint] returns the number denoted when
    it fits 64 bits, and a range error when it does not: neither cutoff
    test fires too early or too late. *)
Lemma parse_uint_loop_spec (s : string) (n : Z) :
  strconv.all_digits s = true → 0 ≤ n ≤ strconv.maxUint64 →
  strconv.parse_uint_loop s n =
    if strconv.decimal_from s n <=? strconv.maxUint64
    then inr (strconv.decimal_from s n) else inl strconv.ErrRange.
Proof.
  revert n. induction s as [|c s IH]; intros n.
  - intros _ Hn. simpl. destruct (Z.leb_spec n strconv.maxUint64); [done|lia].
  - intros [Hc Hs]%andb_true_iff Hn.
    cbn [strconv.parse_uint_loop strconv.decimal_from].
    pose proof (digit_value c Hc) as Hd.
    unfold strconv.is_digit in Hc. rewrite Hc.
    set (n1 := n * 10 + (strconv.byte_val c - 48)) in *.
    pose proof (decimal_from_ge s n1 Hs) as Hge.
    unfold strconv.maxUint64 in *.
    change (2 ^ 64) with 18446744073709551616 in *.
    change ((18446744073709551616 - 1) / 10 + 1) with 1844674407370955162.
    cbv zeta.
    destruct (Z.leb_spec 1844674407370955162 n).
    { destruct (Z.leb_spec (strconv.decimal_from s n1)
                  (18446744073709551616 - 1)); [lia|done]. }
    destruct (Z_lt_le_dec n1 18446744073709551616) as [Hlt|Hle].
    + rewrite Z.mod_small by lia.
      destruct (Z.ltb_spec n1 (n * 10)); [lia|].
      destruct (Z.ltb_spec (18446744073709551616 - 1) n1); [lia|].
      simpl. apply IH; [done|lia].
    + assert (n1 mod 18446744073709551616 = n1 - 18446744073709551616) as ->.
      { symmetry. apply Z.mod_unique with 1; lia. }
      destruct (Z.ltb_spec (n1 - 18446744073709551616) (n * 10)); [|lia].
      simpl.
      destruct (Z.leb_spec (strconv.decimal_from s n1)
                  (18446744073709551616 - 1)); [lia|done].
Qed.

(** The loop of [ParseUint] returns a number on digits only. *)
Lemma parse_uint_loop_digits (s : string) (n v : Z) :
  strconv.parse_uint_loop s n = inr v → strconv.all_digits s = true.
Proof.
  revert n. induction s as [|c s IH]; intros n; [done|].
  cbn [strconv.parse_uint_loop strconv.all_digits]. unfold strconv.is_digit.
  destruct (_ && _); [|discriminate]. cbv zeta.
  destruct (_ <=? n); [discriminate|].
  destruct (_ || _); [discriminate|]. apply IH.
Qed.

(** Up to 18 digits denote a number that fits 63 bits: the fast path
    needs no range check. *)
Lemma decimal_short (ds : string) :
  strconv.all_digits ds = true →
  Z.of_nat (String.length ds) < 19 →
  strconv.decimal ds < 2 ^ 63.
Proof.
  intros Hds Hlen. pose proof (decimal_from_lt ds 0 Hds) as Hlt.
  assert (10 ^ Z.of_nat (String.length ds) ≤ 10 ^ 18)
    by (apply Z.pow_le_mono_r; lia).
  unfold strconv.decimal.
  change (10 ^ 18) with 1000000000000000000 in *.
  change (2 ^ 63) with 9223372036854775808. lia.
Qed.

Lemma ParseUint_digits (ds : string) :
  strconv.all_digits ds = true → ds ≠ "" →
  strconv.ParseUint ds =
    if strconv.decimal ds <=? strconv.maxUint64
    then inr (strconv.decimal ds) else inl strconv.ErrRange.
Proof.
  intros Hds Hne. destruct ds as [|c ds]; [done|].
  unfold strconv.ParseUint, strconv.decimal.
  apply parse_uint_loop_spec; [done|]. unfold strconv.maxUint64. lia.
Qed.

(** [ParseInt] on a numeral with the sign [c] ("+" or "-") before the
    digits [ds]. *)
Lemma ParseInt_as_signed (fn : string) (c : ascii) (ds : string) :
  strconv.all_digits ds = true → ds ≠ "" →
  Ascii.eqb c "+" || Ascii.eqb c "-" = true →
  strconv.ParseInt_as fn (String c ds) =
    if Ascii.eqb c "-"
    then (if strconv.decimal ds <=? 2 ^ 63 then inr (- strconv.decimal ds)
          else inl (strconv.rangeError fn (String c ds)))
    else (if strconv.decimal ds <? 2 ^ 63 then inr (strconv.decimal ds)
          else inl (strconv.rangeError fn (String c ds))).
Proof.
  intros Hds Hne Hsign. unfold strconv.ParseInt_as. rewrite Hsign.
  rewrite (ParseUint_digits ds Hds Hne). unfold strconv.maxUint64.
  change (2 ^ 64) with 18446744073709551616.
  change (2 ^ 63) with 9223372036854775808.
  destruct (Ascii.eqb c "-"); simpl;
    destruct (Z.leb_spec (strconv.decimal ds) (18446744073709551616 - 1));
    simpl.
  - destruct (Z.ltb_spec 9223372036854775808 (strconv.decimal ds));
      destruct (Z.leb_spec (strconv.decimal ds) 9223372036854775808);
      try lia; done.
  - destruct (Z.leb_spec (strconv.decimal ds) 9223372036854775808);
      [lia|done].
  - destruct (Z.leb_spec 9223372036854775808 (strconv.decimal ds));
      destruct (Z.ltb_spec (strconv.decimal ds) 9223372036854775808);
      try lia; done.
  - destruct (Z.ltb_spec (strconv.decimal ds) 9223372036854775808);
      [lia|done].
Qed.

(** [ParseInt] on a numeral without sign. *)
Lemma ParseInt_as_unsigned (fn : string) (ds : string) :
  strconv.all_digits ds = true → ds ≠ "" →
  strconv.ParseInt_as fn ds =
    if strconv.decimal ds <? 2 ^ 63 then inr (strconv.decimal ds)
    else inl (strconv.rangeError fn ds).
Proof.
  intros Hds Hne. destruct ds as [|c ds']; [done|].
  pose proof Hds as [Hc _]%andb_true_iff.
  apply digit_not_sign in Hc as [Hminus Hplus].
  unfold strconv.ParseInt_as. rewrite Hminus, Hplus. simpl orb. cbv iota.
  rewrite (ParseUint_digits _ Hds Hne). unfold strconv.maxUint64.
  change (2 ^ 64) with 18446744073709551616.
  change (2 ^ 63) with 9223372036854775808.
  destruct (Z.leb_spec (strconv.decimal (String c ds')) (18446744073709551616 - 1));
    simpl.
  - destruct (Z.leb_spec 9223372036854775808 (strconv.decimal (String c ds')));
      destruct (Z.ltb_spec (strconv.decimal (String c ds')) 9223372036854775808);
      try lia; done.
  - destruct (Z.ltb_spec (strconv.decimal (String c ds')) 9223372036854775808);
      [lia|done].
Qed.

Lemma Atoi_signed (c : ascii) (ds : string) :
  strconv.all_digits ds = true → ds ≠ "" →
  Ascii.eqb c "+" || Ascii.eqb c "-" = true →
  strconv.Atoi (String c ds) =
    if Ascii.eqb c "-"
    then (if strconv.decimal ds <=? 2 ^ 63 then inr (- strconv.decimal ds)
          else inl (strconv.rangeError "Atoi" (String c ds)))
    else (if strconv.decimal ds <? 2 ^ 63 then inr (strconv.decimal ds)
          else inl (strconv.rangeError "Atoi" (String c ds))).
Proof.
  intros Hds Hne Hsign. unfold strconv.Atoi.
  destruct ((0 <? _) && (_ <? 19)) eqn:Hfast;
    [|by apply ParseInt_as_signed].
  apply andb_true_iff in Hfast as [_ Hlen%Z.ltb_lt].
  cbn [String.length] in Hlen.
  assert (strconv.decimal ds < 2 ^ 63) as Hsmall
    by (apply decimal_short; [done|lia]).
  rewrite orb_comm, Hsign. simpl andb.
  destruct ds as [|d ds']; [done|].
  destruct (Z.ltb_spec (Z.of_nat (String.length (String d ds'))) 1) as [Hl|_];
    [cbn [String.length] in Hl; lia|].
  rewrite atoi_loop_spec, Hds. fold (strconv.decimal (String d ds')).
  destruct (Ascii.eqb c "-").
  - destruct (Z.leb_spec (strconv.decimal (String d ds')) (2 ^ 63)); [done|lia].
  - destruct (Z.ltb_spec (strconv.decimal (String d ds')) (2 ^ 63)); [done|lia].
Qed.

Lemma Atoi_unsigned (ds : string) :
  strconv.all_digits ds = true → ds ≠ "" →
  strconv.Atoi ds =
    if strconv.decimal ds <? 2 ^ 63 then inr (strconv.decimal ds)
    else inl (strconv.rangeError "Atoi" ds).
Proof.
  intros Hds Hne. unfold strconv.Atoi.
  destruct ((0 <? _) && (_ <? 19)) eqn:Hfast;
    [|by apply ParseInt_as_unsigned].
  apply andb_true_iff in Hfast as [_ Hlen%Z.ltb_lt].
  pose proof (decimal_short ds Hds Hlen) as Hsmall.
  destruct ds as [|c ds']; [done|].
  pose proof Hds as [Hc _]%andb_true_iff.
  apply digit_not_sign in Hc as [Hminus Hplus].
  rewrite Hminus, Hplus. simpl orb. simpl andb. cbv iota.
  rewrite atoi_loop_spec, Hds. fold (strconv.decimal (String c ds')).
  destruct (Z.ltb_spec (strconv.decimal (String c ds')) (2 ^ 63)); [done|lia].
Qed.

(** X21: on a string [ds] of one or more decimal digits, alone or after
    a sign, [Atoi] returns the number the digits denote when it fits 64
    bits (leading zeros and a leading "+" are accepted), and a range
    error naming the whole input when it does not. *)
Theorem Atoi_decimal (ds : string) :
  strconv.all_digits ds = true → ds ≠ "" →
  strconv.Atoi ds =
    (if strconv.decimal ds <? 2 ^ 63 then inr (strconv.decimal ds)
     else inl (strconv.rangeError "Atoi" ds)) ∧
  strconv.Atoi (String "+" ds) =
    (if strconv.decimal ds <? 2 ^ 63 then inr (strconv.decimal ds)
     else inl (strconv.rangeError "Atoi" (String "+" ds))) ∧
  strconv.Atoi (String "-" ds) =
    (if strconv.decimal ds <=? 2 ^ 63 then inr (- strconv.decimal ds)
     else inl (strconv.rangeError "Atoi" (String "-" ds))).
Proof.
  intros Hds Hne. split; [by apply Atoi_unsigned|].
  split.
  - by rewrite (Atoi_signed "+" ds Hds Hne).
  - by rewrite (Atoi_signed "-" ds Hds Hne).
Qed.

Lemma Atoi_inr_digits (c : ascii) (rest : string) (n : Z) :
  strconv.Atoi (String c rest) = inr n →
  let ds := if Ascii.eqb c "+" || Ascii.eqb c "-" then rest else String c rest in
  strconv.all_digits ds = true ∧ ds ≠ "".
Proof.
  unfold strconv.Atoi.
  destruct ((0 <? _) && (_ <? 19)).
  - rewrite (orb_comm (Ascii.eqb c "-")).
    destruct (Ascii.eqb c "+" || Ascii.eqb c "-"); simpl andb; cbv iota.
    + destruct rest as [|d rest']; [discriminate|].
      destruct (Z.ltb_spec (Z.of_nat (String.length (String d rest'))) 1) as [Hl|_];
        [cbn [String.length] in Hl; lia|].
      rewrite atoi_loop_spec.
      destruct (strconv.all_digits (String d rest')); [done|discriminate].
    + rewrite atoi_loop_spec.
      destruct (strconv.all_digits (String c rest)); [done|discriminate].
  - unfold strconv.ParseInt_as.
    destruct (Ascii.eqb c "+" || Ascii.eqb c "-").
    + destruct rest as [|d rest']; [discriminate|].
      unfold strconv.ParseUint.
      destruct (strconv.parse_uint_loop _ 0) as [[]|un] eqn:Hloop;
        try discriminate.
      intros _. split; [|done]. by apply parse_uint_loop_digits in Hloop.
    + unfold strconv.ParseUint.
      destruct (strconv.parse_uint_loop _ 0) as [[]|un] eqn:Hloop;
        try discriminate.
      intros _. split; [|done]. by apply parse_uint_loop_digits in Hloop.
Qed.

Lemma sign_char (c : ascii) :
  Ascii.eqb c "+" || Ascii.eqb c "-" = true →
  (c = "+"%char ∧ Ascii.eqb c "-" = false) ∨
  (c = "-"%char ∧ Ascii.eqb c "-" = true).
Proof.
  destruct (Ascii.eqb_spec c "+") as [->|_]; [by left|].
  destruct (Ascii.eqb_spec c "-") as [->|_]; [by right|done].
Qed.

(** X22: [Atoi] accepts nothing else: when it returns a number, the
    input is one or more decimal digits, alone or after one "+" or "-",
    the number is the one they denote, and it fits 64 bits. *)
Theorem Atoi_accepts (s : string) (n : Z) :
  strconv.Atoi s = inr n →
  - 2 ^ 63 ≤ n < 2 ^ 63 ∧
  ∃ ds, strconv.all_digits ds = true ∧ ds ≠ "" ∧
        ((s = ds ∨ s = String "+" ds) ∧ n = strconv.decimal ds ∨
         s = String "-" ds ∧ n = - strconv.decimal ds).
Proof.
  intros Hs. destruct s as [|c rest]; [discriminate|].
  pose proof (Atoi_inr_digits c rest n Hs) as Hshape. simpl in Hshape.
  destruct (Ascii.eqb c "+" || Ascii.eqb c "-") eqn:Hsign.
  - destruct Hshape as [Hds Hne].
    pose proof (decimal_from_ge rest 0 Hds) as Hge. fold (strconv.decimal rest) in Hge.
    rewrite (Atoi_signed c rest Hds Hne Hsign) in Hs.
    apply sign_char in Hsign as [[-> Hm]|[-> Hm]]; rewrite Hm in Hs.
    + destruct (Z.ltb_spec (strconv.decimal rest) (2 ^ 63)); [|discriminate].
      injection Hs as <-. split; [lia|]. exists rest. eauto 10.
    + destruct (Z.leb_spec (strconv.decimal rest) (2 ^ 63)); [|discriminate].
      injection Hs as <-. split; [lia|]. exists rest. eauto 10.
  - destruct Hshape as [Hds Hne].
    pose proof (decimal_from_ge _ 0 Hds) as Hge.
    fold (strconv.decimal (String c rest)) in Hge.
    rewrite (Atoi_unsigned _ Hds Hne) in Hs.
    destruct (Z.ltb_spec (strconv.decimal (String c rest)) (2 ^ 63)); [|discriminate].
    injection Hs as <-. split; [lia|]. exists (String c rest). eauto 10.
Qed.

Lemma digit_char_val (d : Z) :
  0 ≤ d ≤ 9 →
  strconv.is_digit (strconv.digit_char d) = true ∧
  strconv.byte_val (strconv.digit_char d) - 48 = d.
Proof.
  intros Hd. unfold strconv.is_digit, strconv.byte_val, strconv.digit_char.
  rewrite nat_ascii_embedding by lia.
  split; [apply andb_true_iff; split; apply Z.leb_le; lia|lia].
Qed.

Lemma all_digits_app (a b : string) :
  strconv.all_digits (a +:+ b) = strconv.all_digits a && strconv.all_digits b.
Proof.
  induction a as [|c a IH]; simpl; [done|]. by rewrite IH, andb_assoc.
Qed.

Lemma decimal_from_app (a b : string) (n : Z) :
  strconv.decimal_from (a +:+ b) n
  = strconv.decimal_from b (strconv.decimal_from a n).
Proof. revert n. induction a as [|c a IH]; intros n; simpl; [done|apply IH]. Qed.

(** With enough fuel the rendering of [u] is a digit string, not empty,
    that denotes [u]. *)
Lemma digits_of_spec (fuel : nat) (u : Z) :
  0 ≤ u < 10 ^ Z.of_nat fuel → (0 < fuel)%nat →
  strconv.all_digits (strconv.digits_of fuel u) = true ∧
  strconv.digits_of fuel u ≠ "" ∧
  strconv.decimal (strconv.digits_of fuel u) = u.
Proof.
  revert u. induction fuel as [|fuel IH]; intros u Hu Hfuel; [lia|].
  cbn [strconv.digits_of]. destruct (Z.ltb_spec u 10) as [Hsmall|Hbig].
  - destruct (digit_char_val u) as [Hd Hv]; [lia|].
    unfold strconv.decimal. simpl. rewrite Hd, Hv. done.
  - rewrite Nat2Z.inj_succ, Z.pow_succ_r in Hu by lia.
    destruct (IH (u / 10)) as (Hall & Hne & Hdec).
    { split; [apply Z.div_pos; lia|].
      apply Z.div_lt_upper_bound; lia. }
    { destruct fuel; [simpl in Hu; lia|lia]. }
    pose proof (Z.mod_pos_bound u 10 ltac:(lia)) as Hmod.
    destruct (digit_char_val (u mod 10)) as [Hd Hv]; [lia|].
    split; [|split].
    + rewrite all_digits_app, Hall. simpl. by rewrite Hd.
    + intros Happ. destruct (strconv.digits_of fuel (u / 10)); done.
    + unfold strconv.decimal in *. rewrite decimal_from_app, Hdec. simpl.
      rewrite Hv. pose proof (Z.div_mod u 10). lia.
Qed.

Lemma Atoi_Itoa_nonneg (i : Z) :
  0 ≤ i < 2 ^ 63 → strconv.Atoi (strconv.Itoa i) = inr i.
Proof.
  intros Hi. unfold strconv.Itoa.
  assert (2 ^ 63 < 10 ^ Z.of_nat 20) as Hfuel by done.
  destruct (Z.ltb_spec i 0); [lia|].
  destruct (digits_of_spec 20 i) as (Hall & Hne & Hdec); [lia|lia|].
  rewrite (Atoi_unsigned _ Hall Hne), Hdec.
  by destruct (Z.ltb_spec i (2 ^ 63)); [|lia].
Qed.

(** X23: the decimal rendering of a 64-bit integer, as an id appears in
    an encoded Todo, is read back by [Atoi] as that integer. *)
Theorem Atoi_Itoa (i : Z) :
  - 2 ^ 63 ≤ i < 2 ^ 63 → strconv.Atoi (strconv.Itoa i) = inr i.
Proof.
  intros Hi. destruct (Z.ltb_spec i 0) as [Hneg|Hpos];
    [|apply Atoi_Itoa_nonneg; lia].
  unfold strconv.Itoa. destruct (Z.ltb_spec i 0); [|lia].
  assert (2 ^ 63 < 10 ^ Z.of_nat 20) as Hfuel by done.
  destruct (digits_of_spec 20 (- i)) as (Hall & Hne & Hdec); [lia|lia|].
  rewrite (Atoi_signed "-" _ Hall Hne eq_refl), Hdec. simpl.
  destruct (Z.leb_spec (- i) (2 ^ 63)); [|lia]. f_equal. lia.
Qed.

(** X24: a Todo that a POST has been answered with can be fetched under
    its id: a GET of "/todos/" followed by the decimal rendering of the
    id is answered 200 with the same Todo. *)
Theorem POST_then_GET
    (post get : Request) (db db' : DB Time) (t : Todo Time) :
  well_numbered db →
  handle_todos zero_time time_UnmarshalJSON post db
    = (db', Responded (mkResponse 200 (EncodedTodo t))) →
  Method get = "GET" →
  Path get = "/todos/" +:+ strconv.Itoa (ID t) →
  handle_todo zero_time time_UnmarshalJSON get db'
    = (db', Responded (mkResponse 200 (EncodedTodo t))).
Proof.
  intros [_ Hseq] (todo & _ & _ & Hc)%POST_inv Hget Hpath.
  apply Create_result in Hc as (Hf & Hid & Ht & ->).
  apply next_rowid_fresh in Hid as (_ & Hlt & Hle).
  unfold handle_todo. rewrite Hpath, slice_from_prefix.
  rewrite Atoi_Itoa_nonneg
    by (unfold max_int64 in Hle; change (2 ^ 63) with 9223372036854775808 in *; lia).
  rewrite Hget. simpl. rewrite GetByID_ok by reflexivity. simpl.
  rewrite lookup_insert_eq.
  destruct t as [tid ttl tdone tat]. simpl in *. by injection Ht as -> -> ->.
Qed.

(** * Properties of the start-up *)

(** X25: [EnsureMigration] can be repeated without effect; it leaves a
    table that is there as it is, with all its rows; and the table it
    creates in a new database is empty and gives the first Todo the
    id 1. *)
Theorem EnsureMigration_keeps (d : Database Time) :
  EnsureMigration (EnsureMigration d).1 = EnsureMigration d ∧
  (∀ db, d = HasTable db → (EnsureMigration d).1 = HasTable db) ∧
  (∀ clk, d = NoTable clk None →
     ∃ db, EnsureMigration d = (HasTable db, None) ∧
           GetAll db = inr [] ∧
           ∀ T, (Create T db).2 = inr (mkTodo 1 T false clk)).
Proof.
  split; [|split].
  - unfold EnsureMigration.
    destruct d as [clk [e|]|db]; simpl; [done|done|].
    destruct (fault db) as [e|] eqn:Hf; simpl; by rewrite Hf.
  - intros db ->. unfold EnsureMigration. simpl. by destruct (fault db).
  - intros clk ->. eexists. split; [done|]. split.
    + unfold GetAll, query_all. simpl. by rewrite map_to_list_empty.
    + intros T. unfold Create, exec_insert, next_rowid, max_rowid. simpl.
      rewrite map_to_list_empty. simpl.
      unfold GetByID, query_row. simpl. by rewrite lookup_insert_eq.
Qed.

(** X26: [main] ends with [log.Fatal] exactly when the engine has a
    fault, with the error of that fault; otherwise the handlers serve a
    database that has the table, on a working engine, and a table that
    was there before the start is served with its rows unchanged. *)
Theorem main_start_cases (d : Database Time) :
  (∀ err, main_start d = Fatal err ↔
          ∃ e, condition d = Some e ∧ err = ErrEngine e) ∧
  (∀ d', main_start d = Listening d' →
         ∃ db, d' = HasTable db ∧ fault db = None ∧
               ∀ db0, d = HasTable db0 → db = db0).
Proof.
  unfold main_start, NewDB, EnsureMigration.
  destruct (condition d) as [e|] eqn:Hc.
  - split.
    + intros err. split; [intros [= <-]; eauto|].
      by intros (e' & [= <-] & ->).
    + discriminate.
  - rewrite Hc. split.
    + intros err. split; [by destruct d|]. by intros (e & ? & _).
    + intros d'. destruct d as [clk flt|db]; intros [= <-].
      * eexists. split; [done|]. split; [done|]. discriminate.
      * exists db. split; [done|]. split; [done|]. by intros db0 [= ->].
Qed.

End Properties.

(** * The service at work *)

(** ** strconv.Atoi *)

Example Atoi_42 : strconv.Atoi "42" = inr 42.
Proof. reflexivity. Qed.

Example Atoi_neg : strconv.Atoi "-7" = inr (-7).
Proof. reflexivity. Qed.

Example Atoi_abc :
  strconv.Atoi "abc" = inl (strconv.syntaxError "Atoi" "abc").
Proof. reflexivity. Qed.

Example Atoi_empty : strconv.Atoi "" = inl (strconv.syntaxError "Atoi" "").
Proof. reflexivity. Qed.

Example Atoi_max : strconv.Atoi "9223372036854775807" = inr (2 ^ 63 - 1).
Proof. vm_compute. reflexivity. Qed.

Example Atoi_min : strconv.Atoi "-9223372036854775808" = inr (- 2 ^ 63).
Proof. vm_compute. reflexivity. Qed.

Example Atoi_overflow :
  strconv.Atoi "9223372036854775808"
  = inl (strconv.rangeError "Atoi" "9223372036854775808").
Proof. vm_compute. reflexivity. Qed.

Example Atoi_sign_only : strconv.Atoi "-" = inl (strconv.syntaxError "Atoi" "-").
Proof. reflexivity. Qed.

Example Atoi_trailing : strconv.Atoi "12a" = inl (strconv.syntaxError "Atoi" "12a").
Proof. reflexivity. Qed.

Example Atoi_long_overflow_before_letter :
  strconv.Atoi "99999999999999999999999x"
  = inl (strconv.rangeError "Atoi" "99999999999999999999999x").
Proof. vm_compute. reflexivity. Qed.

(** ** The store on the concrete instance *)

Example first_id_is_1 :
  Create "a" empty_db =
    (mkDB {[ 1 := mkRow "a" false clock ]} 1 clock None,
     inr (mkTodo 1 "a" false clock)).
Proof. vm_compute. reflexivity. Qed.

Example Create_on_closed_db :
  Create "a" closed_db = (closed_db, inl (ErrEngine DatabaseClosed)).
Proof. reflexivity. Qed.

(** Ids are not reused: after the newest row is deleted the next id is
    still a new one. *)
Example id_not_reused :
  (Create "again" after_delete).2 = inr (mkTodo 2 "again" false clock).
Proof. vm_compute. reflexivity. Qed.

(** ** Decoding *)

Example decode_title :
  Decode_Todo 0 no_time (Some (JObject [("title", JString "x"); ("completed", JBool true)]))
  = inr (mkTodo 0 "x" true 0).
Proof. reflexivity. Qed.

Example decode_key_case :
  Decode_Todo 0 no_time (Some (JObject [("TITLE", JString "x")]))
  = inr (mkTodo 0 "x" false 0).
Proof. reflexivity. Qed.

Example decode_last_member_wins :
  Decode_Todo 0 no_time (Some (JObject [("title", JString "x"); ("title", JString "y")]))
  = inr (mkTodo 0 "y" false 0).
Proof. reflexivity. Qed.

Example decode_null_into_struct :
  Decode_Todo 0 no_time (Some JNull) = inr (mkTodo 0 "" false 0).
Proof. reflexivity. Qed.

Example decode_null_into_pointer :
  Decode_Todo_ptr 0 no_time (Some JNull) = inr None.
Proof. reflexivity. Qed.

Example decode_array :
  Decode_Todo 0 no_time (Some (JArray []))
  = inl (ErrJSON (UnmarshalTypeError "array" "")).
Proof. reflexivity. Qed.

Example decode_title_number :
  Decode_Todo 0 no_time (Some (JObject [("title", JNumber "5")]))
  = inl (ErrJSON (UnmarshalTypeError "number" "title")).
Proof. reflexivity. Qed.

Example decode_id_fraction :
  Decode_Todo 0 no_time (Some (JObject [("id", JNumber "1.5")]))
  = inl (ErrJSON (UnmarshalTypeError "number 1.5" "id")).
Proof. reflexivity. Qed.

Example decode_no_document :
  Decode_Todo 0 no_time None = inl (ErrJSON SyntaxError).
Proof. reflexivity. Qed.


(** ** The handlers on the concrete instance *)

Example GET_todos_abc :
  handle_todo 0 no_time (mkRequest "GET" "/todos/abc" None) one_todo
  = (one_todo,
     Responded (mkResponse 400
       (Line (ErrorText (ErrNum (strconv.syntaxError "Atoi" "abc")))))).
Proof. reflexivity. Qed.

Example GET_missing_is_500 :
  handle_todo 0 no_time (mkRequest "GET" "/todos/5" None) one_todo
  = (one_todo, Responded (mkResponse 500 (Line (ErrorText ErrNoRows)))).
Proof. vm_compute. reflexivity. Qed.

Example PATCH_is_405 :
  handle_todo 0 no_time (mkRequest "PATCH" "/todos/1" None) one_todo
  = (one_todo, Responded (mkResponse 405 (Line (Text "Method not allowed")))).
Proof. reflexivity. Qed.

Example DELETE_is_200_empty :
  handle_todo 0 no_time (mkRequest "DELETE" "/todos/1" None) one_todo
  = (after_delete, Responded (mkResponse 200 NoBody)).
Proof. vm_compute. reflexivity. Qed.

(** The body of a PUT response is the decoded input, not the stored
    row: the creation time in the answer is the zero time, the one in
    storage is not. *)
Example PUT_answer_is_not_read_back :
  let r := mkRequest "PUT" "/todos/1"
             (Some (JObject [("title", JString "buy oat milk");
                             ("completed", JBool true)])) in
  handle_todo 0 no_time r one_todo
  = (after_update,
     Responded (mkResponse 200 (EncodedTodo (mkTodo 1 "buy oat milk" true 0)))) ∧
  GetByID 1 after_update = inr (mkTodo 1 "buy oat milk" true 1699913600).
Proof. vm_compute. split; reflexivity. Qed.

(** A PUT to an id that is not stored is answered 200 as well. *)
Example PUT_missing_id :
  handle_todo 0 no_time
    (mkRequest "PUT" "/todos/9" (Some (JObject [("title", JString "x")]))) one_todo
  = (one_todo, Responded (mkResponse 200 (EncodedTodo (mkTodo 9 "x" false 0)))).
Proof. vm_compute. reflexivity. Qed.

Example POST_empty_object :
  handle_todos 0 no_time (mkRequest "POST" "/todos" (Some (JObject []))) empty_db
  = (mkDB {[ 1 := mkRow "" false clock ]} 1 clock None,
     Responded (mkResponse 200 (EncodedTodo (mkTodo 1 "" false clock)))).
Proof. vm_compute. reflexivity. Qed.

(** * The theorems at concrete inputs *)

Lemma Create_then_GetByID_witness :
  Create "write spec" one_todo
    = (after_create, inr (mkTodo 2 "write spec" false clock)) ∧
  GetByID 2 after_create = inr (mkTodo 2 "write spec" false clock).
Proof.
  assert (Create "write spec" one_todo
          = (after_create, inr (mkTodo 2 "write spec" false clock))) as H.
  { vm_compute. reflexivity. }
  split; [exact H|].
  exact (proj1 (Create_then_GetByID "write spec" one_todo after_create
                  (mkTodo 2 "write spec" false clock) H)).
Defined.

Lemma Update_then_GetByID_witness :
  todos one_todo !! 1 = Some (mkRow "buy milk" false 1699913600) ∧
  Update (mkTodo 1 "buy oat milk" true 0) one_todo = (after_update, None) ∧
  GetByID 1 after_update = inr (mkTodo 1 "buy oat milk" true 1699913600).
Proof.
  assert (todos one_todo !! 1 = Some (mkRow "buy milk" false 1699913600)) as H.
  { vm_compute. reflexivity. }
  assert (Update (mkTodo 1 "buy oat milk" true 0) one_todo
          = (after_update, None)) as HU.
  { vm_compute. reflexivity. }
  split; [exact H|]. split; [exact HU|].
  exact (proj2 (Update_then_GetByID (mkTodo 1 "buy oat milk" true 0) one_todo
                  (mkRow "buy milk" false 1699913600) H) after_update HU).
Defined.

Lemma Delete_then_GetByID_witness :
  Delete 1 one_todo = (after_delete, None) ∧
  GetByID 1 after_delete = inl ErrNoRows.
Proof.
  assert (Delete 1 one_todo = (after_delete, None)) as H.
  { vm_compute. reflexivity. }
  split; [exact H|].
  exact (Delete_then_GetByID 1 one_todo after_delete H).
Defined.

Lemma Update_Delete_no_match_witness :
  todos one_todo !! 7 = None ∧
  todos one_todo !! 9 = None ∧
  Update (mkTodo 7 "x" true 0) one_todo = (one_todo, None) ∧
  Delete 9 one_todo = (one_todo, None).
Proof.
  assert (todos one_todo !! 7 = None) as H7 by (vm_compute; reflexivity).
  assert (todos one_todo !! 9 = None) as H9 by (vm_compute; reflexivity).
  split; [exact H7|]. split; [exact H9|].
  exact (proj2 (proj2 (Update_Delete_no_match (mkTodo 7 "x" true 0) 9
                         one_todo H7 H9)) eq_refl).
Defined.

Lemma GetAll_count_witness :
  (∃ l l', GetAll one_todo = inr l ∧ GetAll after_create = inr l' ∧
           length l' = S (length l)) ∧
  (∃ l l', GetAll one_todo = inr l ∧ GetAll after_delete = inr l' ∧
           S (length l') = length l).
Proof.
  split.
  - apply (proj1 (GetAll_count one_todo after_create) "write spec"
             (mkTodo 2 "write spec" false clock)).
    vm_compute. reflexivity.
  - apply (proj2 (GetAll_count one_todo after_delete) 1).
    + exists (mkRow "buy milk" false 1699913600). vm_compute. reflexivity.
    + vm_compute. reflexivity.
Defined.

Lemma PUT_responds_with_input_witness :
  let r := mkRequest "PUT" "/todos/1" (Some (JObject [("title", JString "buy oat milk");
                                                    ("completed", JBool true)])) in
  handle_todo 0 no_time r one_todo
  = (after_update,
     Responded (mkResponse 200 (EncodedTodo (mkTodo 1 "buy oat milk" true 0)))).
Proof.
  apply (PUT_responds_with_input 0 no_time
           (mkRequest "PUT" "/todos/1"
              (Some (JObject [("title", JString "buy oat milk");
                              ("completed", JBool true)])))
           one_todo after_update "1" 1
           (JObject [("title", JString "buy oat milk"); ("completed", JBool true)])
           (mkTodo 0 "buy oat milk" true 0)).
  - reflexivity.
  - reflexivity.
  - reflexivity.
  - reflexivity.
  - reflexivity.
  - vm_compute. reflexivity.
Defined.

Lemma bad_id_is_400_witness :
  handle_todo 0 no_time (mkRequest "DELETE" "/todos/abc" None) one_todo
  = (one_todo,
     Responded (mkResponse 400
       (Line (ErrorText (ErrNum (strconv.syntaxError "Atoi" "abc")))))).
Proof.
  apply (bad_id_is_400 0 no_time (mkRequest "DELETE" "/todos/abc" None)
           one_todo "abc" (strconv.syntaxError "Atoi" "abc")).
  - reflexivity.
  - reflexivity.
Defined.

Lemma POST_without_title_witness :
  ∃ db',
    handle_todos 0 no_time
      (mkRequest "POST" "/todos" (Some (JObject [("completed", JBool true)])))
      one_todo
    = (db', Responded (mkResponse 200 (EncodedTodo (mkTodo 2 "" false clock)))) ∧
    todos one_todo !! 2 = None ∧
    todos db' = <[2 := mkRow "" false clock]> (todos one_todo) ∧
    GetByID 2 db' = inr (mkTodo 2 "" false clock).
Proof.
  apply (POST_without_title 0 no_time
           (mkRequest "POST" "/todos" (Some (JObject [("completed", JBool true)])))
           one_todo [("completed", JBool true)] (mkTodo 0 "" true 0) 2).
  - reflexivity.
  - reflexivity.
  - reflexivity.
  - reflexivity.
  - reflexivity.
  - vm_compute. reflexivity.
Defined.

(** C9 as stated fails: this body is a well-formed object without a
    title member, and the request is refused with 400 because another
    member has the wrong JSON type; nothing is stored. *)
Lemma POST_without_title_refused :
  title_absent_or_empty [("completed", JString "yes")] = true ∧
  handle_todos 0 no_time
    (mkRequest "POST" "/todos" (Some (JObject [("completed", JString "yes")])))
    empty_db
  = (empty_db,
     Responded (mkResponse 400
       (Line (ErrorText (ErrJSON (UnmarshalTypeError "string" "completed")))))).
Proof. split; reflexivity. Qed.

(** * The further properties at concrete inputs *)

Lemma well_numbered_one_todo : well_numbered one_todo.
Proof.
  split; [|by vm_compute].
  intros id r Hr. destruct (decide (id = 1)) as [->|Hne]; [done|].
  unfold one_todo in Hr. simpl in Hr.
  by rewrite lookup_singleton_ne in Hr.
Defined.

Lemma GetAll_exactly_stored_witness :
  GetAll one_todo = inr [milk] ∧
  (milk ∈ [milk] ↔ GetByID 1 one_todo = inr milk) ∧
  NoDup [1].
Proof.
  assert (GetAll one_todo = inr [milk]) as H by (vm_compute; reflexivity).
  split; [exact H|].
  split.
  - exact (proj1 (GetAll_exactly_stored one_todo [milk] H) milk).
  - exact (proj2 (GetAll_exactly_stored one_todo [milk] H)).
Defined.

Lemma Create_ids_increase_witness :
  Create "write spec" one_todo = (after_create, inr spec_todo) ∧
  (Create "again" (store_steps [CallDelete 2] after_create)).2
    = inr (mkTodo 3 "again" false clock) ∧
  ID spec_todo < ID (mkTodo 3 "again" false clock).
Proof.
  assert (Create "write spec" one_todo = (after_create, inr spec_todo)) as H1
    by (vm_compute; reflexivity).
  assert (Create "again" (store_steps [CallDelete 2] after_create)
          = ((Create "again" (store_steps [CallDelete 2] after_create)).1,
             inr (mkTodo 3 "again" false clock))) as H2
    by (vm_compute; reflexivity).
  split; [exact H1|]. split; [by rewrite H2|].
  exact (Create_ids_increase "write spec" "again" [CallDelete 2]
           one_todo after_create _ spec_todo _ H1 H2).
Defined.

Lemma Update_last_wins_witness :
  Update (mkTodo 1 "b" true 0) (Update (mkTodo 1 "a" false 5) one_todo).1
  = Update (mkTodo 1 "b" true 0) one_todo.
Proof.
  exact (Update_last_wins (mkTodo 1 "a" false 5) (mkTodo 1 "b" true 0)
           one_todo eq_refl).
Defined.

Lemma Create_then_Delete_witness :
  Create "write spec" one_todo = (after_create, inr spec_todo) ∧
  ∃ db2, Delete 2 after_create = (db2, None) ∧
         todos db2 = todos one_todo ∧ seq db2 = 2 ∧ seq one_todo < 2.
Proof.
  assert (Create "write spec" one_todo = (after_create, inr spec_todo)) as H
    by (vm_compute; reflexivity).
  split; [exact H|].
  exact (Create_then_Delete "write spec" one_todo after_create spec_todo H).
Defined.

Lemma ids_stay_numbered_witness :
  well_numbered (store_steps [CallCreate "a"; CallDelete 1] one_todo) ∧
  ID (mkTodo 3 "b" false clock)
  = seq (store_steps [CallCreate "a"; CallDelete 1] one_todo) + 1.
Proof.
  pose proof (ids_stay_numbered [CallCreate "a"; CallDelete 1] "b" one_todo
                (Create "b" (store_steps [CallCreate "a"; CallDelete 1] one_todo)).1
                (mkTodo 3 "b" false clock) well_numbered_one_todo) as [H1 H2].
  split; [exact H1|]. apply H2. vm_compute. reflexivity.
Defined.

Lemma statuses_witness :
  (serve 0 no_time (ToTodo get_2) one_todo).2
    = Responded (mkResponse 500 (Line (ErrorText ErrNoRows))) ∧
  (Status (mkResponse (Time:=Z) 500 (Line (ErrorText ErrNoRows))) = 200 ∨
   Status (mkResponse (Time:=Z) 500 (Line (ErrorText ErrNoRows))) = 400 ∨
   Status (mkResponse (Time:=Z) 500 (Line (ErrorText ErrNoRows))) = 405 ∨
   Status (mkResponse (Time:=Z) 500 (Line (ErrorText ErrNoRows))) = 500).
Proof.
  assert ((serve 0 no_time (ToTodo get_2) one_todo).2
          = Responded (mkResponse 500 (Line (ErrorText ErrNoRows)))) as H
    by (vm_compute; reflexivity).
  split; [exact H|].
  exact (statuses 0 no_time (ToTodo get_2) one_todo _ H).
Defined.

Lemma method_not_allowed_witness :
  handle_todos 0 no_time (mkRequest "get" "/todos" None) one_todo
    = (one_todo, Responded (mkResponse 405 (Line (Text "Method not allowed")))).
Proof.
  apply (proj1 (method_not_allowed 0 no_time (mkRequest "get" "/todos" None)
                  one_todo "" 0)); discriminate.
Defined.

Lemma storage_changes_only_by_witness :
  (serve 0 no_time (ToTodo delete_1) one_todo).1 ≠ one_todo ∧
  (Method delete_1 = "PUT" ∨ Method delete_1 = "DELETE") ∧
  ∃ resp, (handle_todo 0 no_time delete_1 one_todo).2 = Responded resp ∧
          Status resp = 200.
Proof.
  assert ((serve 0 no_time (ToTodo delete_1) one_todo).1 ≠ one_todo) as H.
  { intros Heq. apply (f_equal (λ d, todos d !! 1)) in Heq.
    vm_compute in Heq. discriminate Heq. }
  split; [exact H|].
  exact (storage_changes_only_by 0 no_time (ToTodo delete_1) one_todo H).
Defined.

Lemma missing_id_responses_witness :
  handle_todo 0 no_time get_2 one_todo
    = (one_todo, Responded (mkResponse 500 (Line (ErrorText ErrNoRows)))).
Proof.
  apply (proj1 (missing_id_responses 0 no_time get_2 one_todo "2" 2
                  eq_refl eq_refl eq_refl ltac:(vm_compute; reflexivity))).
  reflexivity.
Defined.

Lemma PUT_then_GET_witness :
  handle_todo 0 no_time get_1 after_update
  = (after_update,
     Responded (mkResponse 200
       (EncodedTodo (mkTodo 1 "buy oat milk" true 1699913600)))).
Proof.
  apply (PUT_then_GET 0 no_time put_1 get_1 one_todo after_update
           (mkResponse 200 (EncodedTodo (mkTodo 1 "buy oat milk" true 0)))
           "1" 1 (mkTodo 0 "buy oat milk" true 0)
           (mkRow "buy milk" false 1699913600)).
  - reflexivity.
  - reflexivity.
  - reflexivity.
  - reflexivity.
  - vm_compute. reflexivity.
  - vm_compute. reflexivity.
  - reflexivity.
  - reflexivity.
  - reflexivity.
Defined.

Lemma DELETE_then_GET_witness :
  handle_todo 0 no_time get_1 after_delete
  = (after_delete, Responded (mkResponse 500 (Line (ErrorText ErrNoRows)))).
Proof.
  apply (DELETE_then_GET 0 no_time delete_1 get_1 one_todo after_delete
           (mkResponse 200 NoBody)).
  - reflexivity.
  - vm_compute. reflexivity.
  - reflexivity.
  - reflexivity.
  - reflexivity.
Defined.

Lemma POST_created_witness :
  ∃ todo t,
    Decode_Todo_ptr 0 no_time (Body post_spec) = inr (Some todo) ∧
    Payload (mkResponse 200 (EncodedTodo spec_todo)) = EncodedTodo t ∧
    Title t = Title todo ∧ Completed t = false ∧ CreatedAt t = now one_todo ∧
    seq one_todo < ID t ∧ todos one_todo !! ID t = None ∧
    GetByID (ID t) after_create = inr t ∧
    ∀ l, GetAll after_create = inr l → t ∈ l.
Proof.
  apply (POST_created 0 no_time post_spec one_todo after_create
           (mkResponse 200 (EncodedTodo spec_todo))).
  - reflexivity.
  - vm_compute. reflexivity.
  - reflexivity.
Defined.

Lemma POST_ids_increase_witness :
  ID spec_todo < ID (mkTodo 3 "write spec" false clock).
Proof.
  apply (POST_ids_increase 0 no_time post_spec post_spec
           [ToTodo (mkRequest "DELETE" "/todos/2" None)]
           one_todo after_create
           (handle_todos 0 no_time post_spec
              (serve_all 0 no_time
                 [ToTodo (mkRequest "DELETE" "/todos/2" None)] after_create)).1).
  - vm_compute. reflexivity.
  - vm_compute. reflexivity.
Defined.

Lemma served_ids_numbered_witness :
  well_numbered (serve_all 0 no_time [ToTodos post_spec; ToTodo delete_1] one_todo) ∧
  GetByID 0 (serve_all 0 no_time [ToTodos post_spec; ToTodo delete_1] one_todo)
    = inl ErrNoRows.
Proof.
  pose proof (served_ids_numbered 0 no_time [ToTodos post_spec; ToTodo delete_1]
                one_todo well_numbered_one_todo) as (H1 & _ & H3).
  split; [exact H1|]. apply H3; [lia|reflexivity].
Defined.

Lemma PUT_without_title_erases_witness :
  ∃ t, GetByID 1 (handle_todo 0 no_time put_1_done one_todo).1 = inr t ∧
       Title t = "" ∧ CreatedAt t = 1699913600.
Proof.
  apply (PUT_without_title_erases 0 no_time put_1_done one_todo
           (handle_todo 0 no_time put_1_done one_todo).1
           (mkResponse 200 (EncodedTodo (mkTodo 1 "" true 0)))
           "1" 1 [("completed", JBool true)]
           (mkRow "buy milk" false 1699913600)).
  - reflexivity.
  - reflexivity.
  - reflexivity.
  - reflexivity.
  - reflexivity.
  - vm_compute. reflexivity.
  - vm_compute. reflexivity.
  - reflexivity.
Defined.

Lemma Atoi_decimal_witness :
  strconv.Atoi "007" = inr 7 ∧
  strconv.Atoi "+007" = inr 7 ∧
  strconv.Atoi "-007" = inr (-7).
Proof.
  exact (Atoi_decimal "007" eq_refl ltac:(discriminate)).
Defined.

Lemma Atoi_accepts_witness :
  - 2 ^ 63 ≤ -42 < 2 ^ 63 ∧
  ∃ ds, strconv.all_digits ds = true ∧ ds ≠ "" ∧
        (("-42" = ds ∨ "-42" = String "+" ds) ∧ -42 = strconv.decimal ds ∨
         "-42" = String "-" ds ∧ -42 = - strconv.decimal ds).
Proof.
  exact (Atoi_accepts "-42" (-42) eq_refl).
Defined.

Lemma Atoi_Itoa_witness :
  strconv.Atoi (strconv.Itoa (-9223372036854775808))
  = inr (-9223372036854775808).
Proof.
  apply Atoi_Itoa. split; [vm_compute; discriminate|reflexivity].
Defined.

Lemma POST_then_GET_witness :
  handle_todo 0 no_time get_2 after_create
  = (after_create, Responded (mkResponse 200 (EncodedTodo spec_todo))).
Proof.
  apply (POST_then_GET 0 no_time post_spec get_2 one_todo after_create spec_todo).
  - exact well_numbered_one_todo.
  - vm_compute. reflexivity.
  - reflexivity.
  - reflexivity.
Defined.

Lemma GET_todos_lists_witness :
  ∃ l, handle_todos 0 no_time (mkRequest "GET" "/todos" None) one_todo
         = (one_todo, Responded (mkResponse 200 (EncodedTodos l))) ∧
       length l = size (todos one_todo) ∧
       ∀ t, t ∈ l ↔ GetByID (ID t) one_todo = inr t.
Proof.
  exact (proj1 (GET_todos_lists 0 no_time (mkRequest "GET" "/todos" None)
                  one_todo eq_refl) eq_refl).
Defined.

